(** * RAG evaluation utilities: shallow embedding and correctness statements

    The development follows the two Python modules of the repository:
    - [src/utils/evaluation.py]: module-level deepeval metric objects and
      [rag_evaluation];
    - [src/utils/langchain_evaluation.py]: [CorrectnessGrade], [correctness],
      [QA_generator] and [qa_generator].

    Calls that leave the process (the chat model, the retriever) are
    oracles acting on an abstract state of the outside world; console
    output and the calls themselves are recorded in a trace, and Python
    exceptions are an explicit result. *)

From Stdlib Require Import String Ascii List ZArith QArith_base Lia Bool DecimalString.
Import ListNotations.
Open Scope string_scope.
Open Scope list_scope.

(** ** Python values and the built-ins the modules rely on *)

Module Py.

(** The line feed, written ["\n"] in the source. *)
Definition newline : ascii := "010"%char.

Definition nl : string := String newline EmptyString.

(** The double-quote character, which occurs inside one prompt. *)
Definition dquote : string := String "034"%char EmptyString.

(** Dynamically typed values: what a function may return and what a
    structured chat completion yields. A dict is kept as its items; the
    first binding of a key is the live one. *)
#[warnings="-register-all"]
Inductive PyVal : Type :=
| PyNone
| PyBool (b : bool)
| PyStr (s : string)
| PyDict (items : list (string * PyVal)).

(** Exceptions. [KeyError] and [TypeError] are the ones the interpreter
    itself raises for a subscript; the others come from the collaborators
    (network, rate limit, authentication, structured-output failure). *)
Inductive Exn : Type :=
| KeyError (key : string)
| TypeError (msg : string)
| UpstreamFailure (msg : string)
| SchemaViolation (msg : string).

Inductive Result (A : Type) : Type :=
| Ok (a : A)
| Raise (e : Exn).

Arguments Ok {A} a.
Arguments Raise {A} e.

(** [s.split(sep)] for a one-character separator: every occurrence of
    [sep] ends a segment, nothing is stripped and empty segments stay. *)
Fixpoint split (sep : ascii) (s : string) : list string :=
  match s with
  | EmptyString => [EmptyString]
  | String c rest =>
      if Ascii.eqb c sep then EmptyString :: split sep rest
      else match split sep rest with
           | [] => [String c EmptyString]
           | seg :: segs => String c seg :: segs
           end
  end.

(** [sep.join(parts)]. *)
Definition join (sep : string) (parts : list string) : string :=
  String.concat sep parts.

(** [str(n)] for an [int]. *)
Definition str_int (n : Z) : string :=
  NilZero.string_of_int (Z.to_int n).

(** Number of occurrences of a character, [s.count(c)]. *)
Fixpoint count (c : ascii) (s : string) : nat :=
  match s with
  | EmptyString => 0
  | String d rest => (if Ascii.eqb d c then 1 else 0) + count c rest
  end.

(** Item lookup in the items of a dict. *)
Fixpoint lookup {V : Type} (items : list (string * V)) (key : string) : option V :=
  match items with
  | [] => None
  | (k, v) :: rest => if String.eqb k key then Some v else lookup rest key
  end.

(** [d[key]] on a dict whose values are text. *)
Definition getitem_str (d : list (string * string)) (key : string) : Result string :=
  match lookup d key with
  | Some v => Ok v
  | None => Raise (KeyError key)
  end.

(** [v[key]] on an arbitrary value. *)
Definition getitem (v : PyVal) (key : string) : Result PyVal :=
  match v with
  | PyDict items =>
      match lookup items key with
      | Some x => Ok x
      | None => Raise (KeyError key)
      end
  | _ => Raise (TypeError "object is not subscriptable")
  end.

End Py.

Import Py.

(** ** Collaborators, events and the execution monad *)

(** A role-tagged chat message. *)
Record Message : Type := mkMessage { role : string; content : string }.

(** [ChatOpenAI(model=..., temperature=..., top_p=...)]. *)
Record ChatOpenAI : Type := mkChatOpenAI {
  model : string;
  temperature : Q;
  top_p : option Q
}.

(** A [TypedDict] declaration used as structured-output schema. *)
Inductive PyType : Type := TStr | TBool.

Record Field : Type := mkField {
  field_name : string;
  field_type : PyType;
  field_doc : string
}.

Record TypedDict : Type := mkTypedDict {
  class_name : string;
  fields : list Field
}.

(** The arguments of [with_structured_output]. *)
Record StructuredOutput : Type := mkStructuredOutput {
  schema : TypedDict;
  method : option string;
  strict : option bool
}.

(** A retrieved document. *)
Record Document : Type := mkDocument {
  page_content : string;
  metadata : list (string * string)
}.

(** What an observer of the process sees, in order: each call that leaves
    the process together with its outcome, and each [print]. *)
Inductive Event : Type :=
| EvChat (llm : ChatOpenAI) (messages : list Message) (out : Result string)
| EvChatStructured (llm : ChatOpenAI) (so : StructuredOutput)
    (messages : list Message) (out : Result PyVal)
| EvRetrieve (query : string) (out : Result (list Document))
| EvPrint (text : string).

(** The module-level objects of [evaluation.py]. *)
Inductive LLMTestCaseParams : Type := EXPECTED_OUTPUT | ACTUAL_OUTPUT.

Record GEval : Type := mkGEval {
  geval_name : string;
  geval_model : string;
  evaluation_steps : list string;
  evaluation_params : list LLMTestCaseParams
}.

Record ThresholdMetric : Type := mkThresholdMetric {
  threshold : Q;
  metric_model : string;
  include_reason : bool
}.

Record Globals : Type := mkGlobals {
  correctness_metric : GEval;
  faithfullness_metric : ThresholdMetric;
  retrieval_relevance_metric : ThresholdMetric;
  answer_relevance_metric : ThresholdMetric
}.

Section Runtime.

(** State of the outside world: the model provider and whatever backs
    the retriever. Nothing is assumed about it. *)
Variable W : Type.

(** The chat model service: free text (the model piped into
    [StrOutputParser]) or a value for a declared schema. *)
Record Provider : Type := mkProvider {
  chat : ChatOpenAI -> list Message -> W -> W * Result string;
  chat_structured :
    ChatOpenAI -> StructuredOutput -> list Message -> W -> W * Result PyVal
}.

(** A retriever is its [invoke] method. *)
Definition Retriever : Type := string -> W -> W * Result (list Document).

(** The process: the module globals of [evaluation.py] and the world. *)
Record Process : Type := mkProcess { globals : Globals; world : W }.

(** A computation runs on the process, emits events and either returns
    or raises. Events emitted before an exception are kept. *)
Definition M (A : Type) : Type := Process -> Process * list Event * Result A.

Definition ret {A : Type} (a : A) : M A := fun p => (p, [], Ok a).

Definition raise {A : Type} (e : Exn) : M A := fun p => (p, [], Raise e).

Definition bind {A B : Type} (m : M A) (k : A -> M B) : M B :=
  fun p =>
    match m p with
    | (p1, t1, Ok a) =>
        match k a p1 with
        | (p2, t2, r) => (p2, t1 ++ t2, r)
        end
    | (p1, t1, Raise e) => (p1, t1, Raise e)
    end.

Definition lift {A : Type} (r : Result A) : M A :=
  match r with
  | Ok a => ret a
  | Raise e => raise e
  end.

(** [print(text)]. *)
Definition print (text : string) : M unit :=
  fun p => (p, [EvPrint text], Ok tt).

Variable provider : Provider.

(** [(prompt | llm | StrOutputParser()).invoke] after the prompt has been
    formatted, and [llm.invoke(messages)] for a plain model. *)
Definition llm_invoke (llm : ChatOpenAI) (messages : list Message) : M string :=
  fun p =>
    match chat provider llm messages (world p) with
    | (w, out) => (mkProcess (globals p) w, [EvChat llm messages out], out)
    end.

(** [llm.with_structured_output(...).invoke(messages)]. *)
Definition structured_invoke (llm : ChatOpenAI) (so : StructuredOutput)
    (messages : list Message) : M PyVal :=
  fun p =>
    match chat_structured provider llm so messages (world p) with
    | (w, out) => (mkProcess (globals p) w, [EvChatStructured llm so messages out], out)
    end.

(** [retriever.invoke(query)]. *)
Definition retriever_invoke (retriever : Retriever) (query : string)
    : M (list Document) :=
  fun p =>
    match retriever query (world p) with
    | (w, out) => (mkProcess (globals p) w, [EvRetrieve query out], out)
    end.

End Runtime.

Arguments ret {W A} a.
Arguments raise {W A} e.
Arguments bind {W A B} m k.
Arguments lift {W A} r.
Arguments print {W} text.
Arguments llm_invoke {W} provider llm messages.
Arguments structured_invoke {W} provider llm so messages.
Arguments retriever_invoke {W} retriever query.
Arguments mkProcess {W} globals world.
Arguments globals {W} p.
Arguments world {W} p.
Arguments chat {W} p.
Arguments chat_structured {W} p.

Declare Scope py_scope.
Delimit Scope py_scope with py.
Notation "x <- m ;; k" := (bind m (fun x => k))
  (at level 61, m at next level, right associativity) : py_scope.
Notation "m ;; k" := (bind m (fun _ => k))
  (at level 61, right associativity) : py_scope.
Open Scope py_scope.

(** Projections of a finished run. *)
Definition final {W A : Type} (x : Process W * list Event * Result A) : Process W :=
  fst (fst x).
Definition trace {W A : Type} (x : Process W * list Event * Result A) : list Event :=
  snd (fst x).
Definition outcome {W A : Type} (x : Process W * list Event * Result A) : Result A :=
  snd x.

(** ** [src/utils/evaluation.py] *)

Module Evaluation.

(** The four metric objects built when the module is loaded. *)
Definition correctness_metric_0 : GEval :=
  mkGEval "correctness" "gpt-4o-mini"
    ["Determine whether the actual output is factually correct based on the expected output."]
    [EXPECTED_OUTPUT; ACTUAL_OUTPUT].

Definition faithfullness_metric_0 : ThresholdMetric :=
  mkThresholdMetric (7 # 10) "gpt-4o-mini" true.

Definition retrieval_relevance_metric_0 : ThresholdMetric :=
  mkThresholdMetric (7 # 10) "gpt-4o-mini" true.

Definition answer_relevance_metric_0 : ThresholdMetric :=
  mkThresholdMetric (7 # 10) "gpt-4o-mini" true.

(** Module load: the top-level assignments, executed once. *)
Definition module_load : Globals :=
  mkGlobals correctness_metric_0 faithfullness_metric_0
    retrieval_relevance_metric_0 answer_relevance_metric_0.

(** The text of [eval_prompt] around its two placeholders. *)
Definition eval_prompt_0 : string :=
  "
    Evaluate the following retrieval results for the question.
    Question: ".

Definition eval_prompt_1 : string :=
  "
    Retrieved Documents: ".

Definition eval_prompt_2 : string :=
  "
    
    Rate on a scale of 1-5 (5 being the best) for:
    1. Relevance: How relevant is the retrieved information to the question?
    2. Completeness: Does the context contain all necessary information?
    3. Conciseness: Is the retrieved context focused and free of irrelevant information?
    
    Provide ratings in JSON format:
    ".

(** [eval_prompt_template.format(question=..., context=...)]. *)
Definition eval_prompt (question context : string) : string :=
  eval_prompt_0 ++ question ++ eval_prompt_1 ++ context ++ eval_prompt_2.

(** [question_gen_template.format(num_questions=..., topic=...)]. *)
Definition question_gen_prompt (num_questions : Z) (topic : string) : string :=
  "Generate " ++ str_int num_questions
    ++ " diverse test questions about about " ++ topic ++ ".".

(** A formatted prompt reaches the model as a single human message. *)
Definition to_messages (text : string) : list Message :=
  [mkMessage "human" text].

(** [ChatOpenAI(model="gpt-4o-mini", temperature=0)]. *)
Definition llm : ChatOpenAI := mkChatOpenAI "gpt-4o-mini" 0 None.

(** The five [print] calls that end an iteration. *)
Definition progress_line (i : nat) (num_questions : Z) : string :=
  "Evaluated question " ++ str_int (Z.of_nat i + 1) ++ "/"
    ++ str_int num_questions ++ ":".

Definition separator_line : string := "-------------------" ++ nl.

Section RagEvaluation.

Variable W : Type.
Variable provider : Provider W.
Variable retriever : Retriever W.

(** [eval_chain.invoke({"question": ..., "context": ...})]. *)
Definition eval_chain_invoke (question context : string) : M W string :=
  llm_invoke provider llm (to_messages (eval_prompt question context)).

(** [question_gen_chain.invoke({"num_questions": ..., "topic": ...})]. *)
Definition question_gen_chain_invoke (num_questions : Z) (topic : string)
    : M W string :=
  llm_invoke provider llm (to_messages (question_gen_prompt num_questions topic)).

(** The questions: the reply split at line feeds. *)
Definition generate_questions (num_questions : Z) (eval_topic : string)
    : M W (list string) :=
  reply <- question_gen_chain_invoke num_questions eval_topic ;;
  ret (split newline reply).

(** One iteration of the loop. [results] is the local list; the statement
    that would append to it is commented out in the source. *)
Definition loop_body (num_questions : Z) (i : nat) (question : string)
    (results : list string) : M W (list string) :=
  context <- retriever_invoke retriever question ;;
  let context_text := join nl (map page_content context) in
  eval_result <- eval_chain_invoke question context_text ;;
  print (progress_line i num_questions) ;;
  print ("Question: " ++ question) ;;
  print ("Context: " ++ context_text) ;;
  print ("Evaluation: " ++ eval_result) ;;
  print separator_line ;;
  ret results.

(** [for i, question in enumerate(questions)], counting from [i]. *)
Fixpoint for_enumerate (num_questions : Z) (i : nat) (questions : list string)
    (results : list string) : M W (list string) :=
  match questions with
  | [] => ret results
  | question :: rest =>
      results' <- loop_body num_questions i question results ;;
      for_enumerate num_questions (S i) rest results'
  end.

(** The function body up to the end of the loop, yielding the locals
    [questions] and [results]. *)
Definition rag_evaluation_locals (num_questions : Z) (eval_topic : string)
    : M W (list string * list string) :=
  questions <- generate_questions num_questions eval_topic ;;
  results <- for_enumerate num_questions 0 questions [] ;;
  ret (questions, results).

(** [rag_evaluation]: the return statement is commented out, so the
    function falls off its end. *)
Definition rag_evaluation (num_questions : Z) (eval_topic : string) : M W PyVal :=
  rag_evaluation_locals num_questions eval_topic ;;
  ret PyNone.

End RagEvaluation.

(** Default arguments. *)
Definition default_num_questions : Z := 5.
Definition default_eval_topic : string := "climate change".

End Evaluation.

(** ** [src/utils/langchain_evaluation.py] *)

Module LangchainEvaluation.

(** [class CorrectnessGrade(TypedDict)]; the field names are the
    source's. *)
Definition CorrectnessGrade : TypedDict :=
  mkTypedDict "CorrectnessGrade"
    [ mkField "explaination" TStr "Exaplain the reasoning behind the grade";
      mkField "correct" TBool "True if the response is correct, False otherwise" ].

(** [class QA_generator(TypedDict)]. *)
Definition QA_generator : TypedDict :=
  mkTypedDict "QA_generator"
    [ mkField "question" TStr "The question generated from the context.";
      mkField "answer" TStr "The answer to the question." ].

Definition correctness_prompt : string :=
  "
    You will be given a QUESTION, a GROUND TRUTH (correct) ANSWER, and a RESPONSE.
    Here is the evaluation criteria to follow:
    (1) Grade the RESPONSE based ONLY on their factual accuracy relative to the GROUND TRUTH ANSWER.
    (2) Ensure that the RESPONSE does not contain any conflicting statements.
    (3) It is OK if the RESPONSE contains more information than the GROUND TRUTH ANSWER, as long as it is factually relative to the GROUND TRUTH ANSWER.

    Correctness:
    A correctness of True means that the RESPONSE meets all the criteria.
    A correctness of False means that the RESPONSE does not meet all the criteria.

    Explain your reasoning in a step-by-step manner to ensure your reasoning and conclusion are correct.
    Avoid simply stating the correct answer at the outset.
    ".

Definition instruct_prompt : string :=
  "
    You are an expert evaluator specialized in creating high-quality question-answer pairs for information retrieval and reading comprehension tasks. 
    Your goal is to generate diverse, natural, and challenging questions that test understanding of the given context.

    Follow these principles:
    1. Generate questions that require precise understanding of the context
    2. Vary question types (what, why, how, when, etc.)
    3. Target different cognitive levels (recall, understanding, analysis)
    4. Ensure questions are unambiguous and have clear, verifiable answers
    ".

Definition generation_prompt_0 : string :=
  dquote ++ "
    Create a natural and challenging question-answer pair from the given context that would be valuable for evaluating language models.

    Question Requirements:
    1. Natural Language: Frame the question as a real user would ask on a search engine or conversational AI
    2. Specificity: Question must be answerable with specific information from the context
    3. Clarity: Question should be unambiguous with only one correct interpretation
    4. Depth: Prefer questions that require understanding rather than simple keyword matching
    5. Independence: Question must stand alone without referencing the context or source
    6. Conciseness: Both question and answer should be concise and to the point

    Answer Requirements:
    1. Accuracy: Must be supported by the context
    2. Completeness: Include all necessary information to fully answer the question
    3. Conciseness: Exclude irrelevant details
    4. Self-contained: Answer should make sense without needing additional context

    AVOID:
    - Questions that can be answered without the context
    - Questions with multiple possible correct answers
    - Questions that require information beyond the context
    - Meta-references like " ++ dquote ++ "according to the passage" ++ dquote ++ " or " ++ dquote ++ "in the context" ++ dquote ++ "
    - Yes/no questions unless they test critical understanding
    - Overly simple questions that only require word matching

    Output Format:
    Question: <your question>
    Answer: <your answer>

    Context:
    ".

Definition generation_prompt_1 : string :=
  "
    ".

(** [generation_prompt.format(context=context)]. *)
Definition generation_prompt (context : string) : string :=
  generation_prompt_0 ++ context ++ generation_prompt_1.

(** The f-string bound to [context] in [correctness]. *)
Definition grading_context (question ground_truth response : string) : string :=
  "
    QUESTION: " ++ question ++ "
    GROUND TRUTH ANSWER: " ++ ground_truth ++ "
    RESPONSE: " ++ response ++ "
    ".

(** [ChatOpenAI(model="gpt-4o-mini", temperature=0)
      .with_structured_output(CorrectnessGrade, method="json_schema", strict=True)]. *)
Definition grader_model : ChatOpenAI := mkChatOpenAI "gpt-4o-mini" 0 None.

Definition grader_output : StructuredOutput :=
  mkStructuredOutput CorrectnessGrade (Some "json_schema") (Some true).

(** [ChatOpenAI(model="gpt-4o-mini", temperature=0.5, top_p=0.99)
      .with_structured_output(QA_generator)]. *)
Definition generator_model : ChatOpenAI :=
  mkChatOpenAI "gpt-4o-mini" (1 # 2) (Some (99 # 100)).

Definition generator_output : StructuredOutput :=
  mkStructuredOutput QA_generator None None.

Section Graders.

Variable W : Type.
Variable provider : Provider W.

(** [correctness(inputs, outputs, ref_outputs)]. The three dicts carry
    text under the keys that are read. *)
Definition correctness (inputs outputs ref_outputs : list (string * string))
    : M W PyVal :=
  question <- lift (getitem_str inputs "question") ;;
  ground_truth <- lift (getitem_str ref_outputs "answer") ;;
  response <- lift (getitem_str outputs "answer") ;;
  let context := grading_context question ground_truth response in
  grade <- structured_invoke provider grader_model grader_output
             [ mkMessage "system" correctness_prompt;
               mkMessage "user" context ] ;;
  lift (getitem grade "correct").

(** [qa_generator(context)]. *)
Definition qa_generator (context : string) : M W PyVal :=
  outputs <- structured_invoke provider generator_model generator_output
               [ mkMessage "system" instruct_prompt;
                 mkMessage "user" (generation_prompt context) ] ;;
  ret outputs.

End Graders.

End LangchainEvaluation.

(** ** Observations on traces *)

(** The exception an event ended with, if any. *)
Definition raised (ev : Event) : option Exn :=
  match ev with
  | EvChat _ _ (Raise e) => Some e
  | EvChatStructured _ _ _ (Raise e) => Some e
  | EvRetrieve _ (Raise e) => Some e
  | _ => None
  end.

(** The queries passed to [retriever.invoke], in order. *)
Definition retrieved_queries (t : list Event) : list string :=
  flat_map (fun ev => match ev with EvRetrieve q _ => [q] | _ => [] end) t.

(** The retrievals that returned, with the documents they returned. *)
Definition retrievals (t : list Event) : list (string * list Document) :=
  flat_map (fun ev => match ev with EvRetrieve q (Ok docs) => [(q, docs)] | _ => [] end) t.

(** The message lists sent to the free-text chat model, in order. *)
Definition chat_calls (t : list Event) : list (list Message) :=
  flat_map (fun ev => match ev with EvChat _ msgs _ => [msgs] | _ => [] end) t.

(** The console, one entry per [print]. *)
Definition printed (t : list Event) : list string :=
  flat_map (fun ev => match ev with EvPrint s => [s] | _ => [] end) t.

(** Is the event the question-generation call for these arguments? *)
Definition is_question_gen_call (num_questions : Z) (topic : string) (ev : Event) : bool :=
  match ev with
  | EvChat _ [m] _ =>
      String.eqb (content m) (Evaluation.question_gen_prompt num_questions topic)
  | _ => false
  end.

(** The replies of the free-text model calls that returned, in order. *)
Definition returned_chats (t : list Event) : list string :=
  flat_map (fun ev => match ev with EvChat _ _ (Ok s) => [s] | _ => [] end) t.

(** An event [rag_evaluation] may produce: a retrieval, a [print], or a
    free-text call to its one model with a single human message. *)
Definition evaluator_event (ev : Event) : Prop :=
  match ev with
  | EvChat l msgs _ =>
      l = Evaluation.llm /\ exists text, msgs = [mkMessage "human" text]
  | EvChatStructured _ _ _ _ => False
  | EvRetrieve _ _ => True
  | EvPrint _ => True
  end.

(** No call in the trace raised. *)
Definition clean (t : list Event) : Prop :=
  Forall (fun ev => raised ev = None) t.

(** ** The shape of a completed loop *)

(** What one completed iteration went through. *)
Record Iteration : Type := mkIteration {
  it_question : string;
  it_context : list Document;
  it_eval_result : string
}.

Definition it_context_text (it : Iteration) : string :=
  join nl (map page_content (it_context it)).

(** The console lines of a completed iteration. *)
Definition iteration_lines (num_questions : Z) (i : nat) (it : Iteration) : list string :=
  [ Evaluation.progress_line i num_questions;
    ("Question: " ++ it_question it)%string;
    ("Context: " ++ it_context_text it)%string;
    ("Evaluation: " ++ it_eval_result it)%string;
    Evaluation.separator_line ].

(** The events of a completed iteration. *)
Definition iteration_events (num_questions : Z) (i : nat) (it : Iteration) : list Event :=
  EvRetrieve (it_question it) (Ok (it_context it))
  :: EvChat Evaluation.llm
       (Evaluation.to_messages (Evaluation.eval_prompt (it_question it) (it_context_text it)))
       (Ok (it_eval_result it))
  :: map EvPrint (iteration_lines num_questions i it).

Fixpoint loop_events (num_questions : Z) (i : nat) (its : list Iteration) : list Event :=
  match its with
  | [] => []
  | it :: rest => iteration_events num_questions i it ++ loop_events num_questions (S i) rest
  end.

Fixpoint loop_lines (num_questions : Z) (i : nat) (its : list Iteration) : list string :=
  match its with
  | [] => []
  | it :: rest => iteration_lines num_questions i it ++ loop_lines num_questions (S i) rest
  end.

(** ** Notions taken from the specification *)

Definition has_type (t : PyType) (v : PyVal) : bool :=
  match t, v with
  | TStr, PyStr _ => true
  | TBool, PyBool _ => true
  | _, _ => false
  end.

(** A value conforms to a schema when it is a dict holding, under every
    declared field, a value of the declared type. The specification's
    grade record is a value that conforms to [CorrectnessGrade]. *)
Definition conforms (td : TypedDict) (v : PyVal) : bool :=
  match v with
  | PyDict items =>
      forallb (fun f => match lookup items (field_name f) with
                        | Some x => has_type (field_type f) x
                        | None => false
                        end) (fields td)
  | _ => false
  end.

(** The grade record of the specification's data model: a textual
    [explanation] and a boolean [correct]. *)
Definition GradeResult : TypedDict :=
  mkTypedDict "GradeResult"
    [ mkField "explanation" TStr EmptyString;
      mkField "correct" TBool EmptyString ].

(** The specification's reading of the question list: the segments of the
    reply between line feeds, all of them, untouched. *)
Definition is_line_split (reply : string) (segments : list string) : Prop :=
  segments <> [] /\
  join nl segments = reply /\
  Forall (fun s => count newline s = 0%nat) segments.

(** ** Properties of runs *)

(** A run stops at the first call that raises: either no call raised, or
    the trace ends with the one that did and the run raises the same
    exception. *)
Definition stops_at_failure {W A : Type}
    (x : Process W * list Event * Result A) : Prop :=
  clean (trace x) \/
  exists t ev e,
    trace x = t ++ [ev] /\ clean t /\ raised ev = Some e /\ outcome x = Raise e.

(** No exception is caught: a call of the trace that raised is the last
    thing the run did, and the run raises that exception. *)
Definition uncaught {W A : Type} (x : Process W * list Event * Result A) : Prop :=
  forall (t1 : list Event) (ev : Event) (t2 : list Event) (e : Exn),
    trace x = t1 ++ ev :: t2 -> raised ev = Some e ->
    t2 = [] /\ outcome x = Raise e.

(** A computation neither reads nor writes the module globals: it leaves
    them as they are, and everything else it does is the same whatever
    they hold. *)
Definition ignores_globals {W A : Type} (m : M W A) : Prop :=
  forall (g g' : Globals) (w : W),
    globals (final (m (mkProcess g w))) = g /\
    world (final (m (mkProcess g w))) = world (final (m (mkProcess g' w))) /\
    trace (m (mkProcess g w)) = trace (m (mkProcess g' w)) /\
    outcome (m (mkProcess g w)) = outcome (m (mkProcess g' w)).

(** ** Concrete collaborators *)

Module Demo.

(** The world counts the chat completions served so far. The first
    free-text completion is the question list, later ones are ratings. *)
Definition provider (first_reply : string) : Provider nat :=
  mkProvider nat
    (fun _ _ n =>
       (S n, Ok (if Nat.eqb n 0 then first_reply
                 else "relevance 4, completeness 3, conciseness 5")))
    (fun _ so _ n =>
       (S n,
        Ok (if String.eqb (class_name (schema so)) "QA_generator"
            then PyDict [("question", PyStr "At what temperature does water boil at sea level?");
                         ("answer", PyStr "100 degrees Celsius")]
            else PyDict [("explaination", PyStr "The response names the same city.");
                         ("correct", PyBool true)]))).

(** A provider whose structured endpoint is down. *)
Definition provider_down : Provider nat :=
  mkProvider nat
    (fun _ _ n => (S n, Raise (UpstreamFailure "rate limit")))
    (fun _ _ _ n => (S n, Raise (SchemaViolation "refused"))).

(** A retriever that returns the same two documents for every query. *)
Definition retriever : Retriever nat :=
  fun _ n => (n, Ok [mkDocument "Sea levels are rising." [];
                     mkDocument "Glaciers are retreating." []]).

(** A retriever that fails on one query. *)
Definition flaky_retriever (bad : string) : Retriever nat :=
  fun q n =>
    if String.eqb q bad then (n, Raise (UpstreamFailure "timeout"))
    else (n, Ok [mkDocument "Sea levels are rising." []]).

Definition start : Process nat := mkProcess Evaluation.module_load 0%nat.

(** Replies of the question generator used in the examples. *)
Definition two_lines : string := "Q1" ++ nl ++ "Q2".

Definition five_lines : string :=
  "Q1" ++ nl ++ "Q2" ++ nl ++ "Q3" ++ nl ++ "Q4" ++ nl ++ "Q5".

Definition six_lines : string :=
  "Here are the questions:" ++ nl ++ five_lines.

(** Runs of the evaluator with the default arguments. *)
Definition run (reply : string) : Process nat * list Event * Result PyVal :=
  Evaluation.rag_evaluation nat (provider reply) retriever
    Evaluation.default_num_questions Evaluation.default_eval_topic start.

Definition flaky_run : Process nat * list Event * Result PyVal :=
  Evaluation.rag_evaluation nat (provider five_lines) (flaky_retriever "Q2")
    Evaluation.default_num_questions Evaluation.default_eval_topic start.

(** A grading request. *)
Definition inputs : list (string * string) :=
  [("question", "What is the capital of France?")].

Definition outputs : list (string * string) :=
  [("answer", "The capital of France is Paris.")].

Definition ref_outputs : list (string * string) :=
  [("answer", "Paris")].

Definition grading : Process nat * list Event * Result PyVal :=
  LangchainEvaluation.correctness nat (provider two_lines)
    inputs outputs ref_outputs start.

(** A retriever that finds nothing. *)
Definition empty_retriever : Retriever nat :=
  fun _ n => (n, Ok []).

(** A provider whose grader returns a given grade. *)
Definition provider_grade (grade : PyVal) : Provider nat :=
  mkProvider nat
    (fun _ _ n => (S n, Ok two_lines))
    (fun _ _ _ n => (S n, Ok grade)).

End Demo.

(** * Properties *)

(** ** [str.split] and [str.join] *)

Lemma split_not_nil (sep : ascii) (s : string) : split sep s <> [].
Proof.
  destruct s as [|c rest]; simpl; [discriminate|].
  destruct (Ascii.eqb c sep); [discriminate|].
  destruct (split sep rest); discriminate.
Qed.

Lemma join_split (sep : ascii) (s : string) :
  join (String sep EmptyString) (split sep s) = s.
Proof.
  unfold join. induction s as [|c rest IH]; simpl; [reflexivity|].
  destruct (Ascii.eqb_spec c sep) as [->|Hne].
  - pose proof (split_not_nil sep rest) as Hnil.
    destruct (split sep rest) as [|seg segs]; [contradiction|].
    simpl in *. now rewrite IH.
  - pose proof (split_not_nil sep rest) as Hnil.
    destruct (split sep rest) as [|seg segs]; [contradiction|].
    destruct segs as [|seg' segs]; simpl in *; now rewrite IH.
Qed.

Lemma split_segments_free (sep : ascii) (s : string) :
  Forall (fun seg => count sep seg = 0%nat) (split sep s).
Proof.
  induction s as [|c rest IH]; simpl.
  - constructor; [reflexivity|constructor].
  - destruct (Ascii.eqb c sep) eqn:E.
    + constructor; [reflexivity|exact IH].
    + destruct (split sep rest) as [|seg segs]; simpl.
      * constructor; [simpl; now rewrite E|constructor].
      * inversion IH as [|? ? Hseg Hsegs]; subst.
        constructor; [simpl; now rewrite E|exact Hsegs].
Qed.

Lemma length_split (sep : ascii) (s : string) :
  length (split sep s) = S (count sep s).
Proof.
  induction s as [|c rest IH]; simpl; [reflexivity|].
  destruct (Ascii.eqb c sep); simpl.
  - now rewrite IH.
  - destruct (split sep rest); simpl in *; lia.
Qed.

Lemma split_free (sep : ascii) (seg : string) :
  count sep seg = 0%nat -> split sep seg = [seg].
Proof.
  induction seg as [|c rest IH]; simpl; [reflexivity|].
  destruct (Ascii.eqb c sep); simpl; [discriminate|].
  intros H. now rewrite (IH H).
Qed.

Lemma split_free_then_sep (sep : ascii) (seg rest : string) :
  count sep seg = 0%nat ->
  split sep (seg ++ String sep rest)%string = seg :: split sep rest.
Proof.
  induction seg as [|c seg' IH]; simpl.
  - intros _. now rewrite Ascii.eqb_refl.
  - destruct (Ascii.eqb c sep); simpl; [discriminate|].
    intros H. now rewrite (IH H).
Qed.

(** The segments are determined by the three conditions of
    [is_line_split]. *)
Lemma is_line_split_unique (reply : string) (segments : list string) :
  is_line_split reply segments -> segments = split newline reply.
Proof.
  intros (Hnil & Hjoin & Hfree). subst reply. unfold join.
  induction segments as [|seg segs IH]; [contradiction|].
  inversion Hfree as [|? ? Hseg Hsegs]; subst.
  destruct segs as [|seg' segs].
  - simpl. symmetry. now apply split_free.
  - change (String.concat nl (seg :: seg' :: segs))
      with (seg ++ String newline (String.concat nl (seg' :: segs)))%string.
    rewrite split_free_then_sep by assumption.
    f_equal. apply IH; [discriminate|assumption].
Qed.

Lemma split_is_line_split (reply : string) :
  is_line_split reply (split newline reply).
Proof.
  repeat split.
  - apply split_not_nil.
  - apply join_split.
  - apply split_segments_free.
Qed.

Example split_two_lines : split newline Demo.two_lines = ["Q1"; "Q2"].
Proof. reflexivity. Qed.

Example split_keeps_empty_segments :
  split newline ("a" ++ nl ++ nl ++ " b " ++ nl)%string
  = ["a"; EmptyString; " b "; EmptyString].
Proof. reflexivity. Qed.

Example split_empty_reply : split newline EmptyString = [EmptyString].
Proof. reflexivity. Qed.

Example str_int_samples : (str_int 5, str_int 0, str_int (-3)) = ("5", "0", "-3").
Proof. reflexivity. Qed.

Example question_gen_prompt_default :
  Evaluation.question_gen_prompt Evaluation.default_num_questions
    Evaluation.default_eval_topic
  = "Generate 5 diverse test questions about about climate change.".
Proof. reflexivity. Qed.

Example progress_line_first : Evaluation.progress_line 0 5 = "Evaluated question 1/5:".
Proof. reflexivity. Qed.

(** ** Traces *)

Lemma retrieved_queries_app (t1 t2 : list Event) :
  retrieved_queries (t1 ++ t2) = retrieved_queries t1 ++ retrieved_queries t2.
Proof. apply flat_map_app. Qed.

Lemma retrievals_app (t1 t2 : list Event) :
  retrievals (t1 ++ t2) = retrievals t1 ++ retrievals t2.
Proof. apply flat_map_app. Qed.

Lemma chat_calls_app (t1 t2 : list Event) :
  chat_calls (t1 ++ t2) = chat_calls t1 ++ chat_calls t2.
Proof. apply flat_map_app. Qed.

Lemma printed_app (t1 t2 : list Event) :
  printed (t1 ++ t2) = printed t1 ++ printed t2.
Proof. apply flat_map_app. Qed.

Lemma printed_map_EvPrint (lines : list string) :
  printed (map EvPrint lines) = lines.
Proof.
  induction lines as [|l ls IH]; simpl; [reflexivity|]. now rewrite <- IH at 2.
Qed.

Lemma clean_app (t1 t2 : list Event) :
  clean t1 -> clean t2 -> clean (t1 ++ t2).
Proof. intros H1 H2. apply Forall_app. now split. Qed.

Lemma clean_map_EvPrint (lines : list string) : clean (map EvPrint lines).
Proof. induction lines; simpl; constructor; [reflexivity|assumption]. Qed.

Lemma clean_iteration_events (n : Z) (i : nat) (it : Iteration) :
  clean (iteration_events n i it).
Proof.
  unfold iteration_events.
  do 2 (constructor; [reflexivity|]). apply clean_map_EvPrint.
Qed.

(** ** The execution monad *)

Section MonadFacts.

Variable W : Type.

Lemma bind_ok {A B : Type} (m : M W A) (k : A -> M W B) (p p1 : Process W)
    (t1 : list Event) (a : A) :
  m p = (p1, t1, Ok a) ->
  bind m k p = (final (k a p1), t1 ++ trace (k a p1), outcome (k a p1)).
Proof.
  intros H. unfold bind. rewrite H.
  destruct (k a p1) as [[p2 t2] r]. reflexivity.
Qed.

Lemma bind_raise {A B : Type} (m : M W A) (k : A -> M W B) (p p1 : Process W)
    (t1 : list Event) (e : Exn) :
  m p = (p1, t1, Raise e) -> bind m k p = (p1, t1, Raise e).
Proof. intros H. unfold bind. now rewrite H. Qed.

(** An exception is never intercepted by sequencing. *)
Lemma stops_at_failure_bind {A B : Type} (m : M W A) (k : A -> M W B)
    (p : Process W) :
  stops_at_failure (m p) ->
  (forall a p1, stops_at_failure (k a p1)) ->
  stops_at_failure (bind m k p).
Proof.
  intros Hm Hk. destruct (m p) as [[p1 t1] [a|e]] eqn:E.
  - rewrite (bind_ok _ _ _ _ _ _ E).
    assert (Hclean : clean t1).
    { destruct Hm as [Hc|(t & ev & e & _ & _ & _ & Hout)]; [exact Hc|discriminate]. }
    specialize (Hk a p1).
    destruct (k a p1) as [[p2 t2] r]. unfold stops_at_failure in *. simpl in *.
    destruct Hk as [Hc|(t & ev & e & -> & Hc & Hev & Hout)].
    + left. now apply clean_app.
    + right. exists (t1 ++ t), ev, e. rewrite app_assoc.
      repeat split; try assumption. now apply clean_app.
  - rewrite (bind_raise _ _ _ _ _ _ E).
    destruct Hm as [Hc|(t & ev & e' & Ht & Hc & Hev & Hout)]; [now left|].
    right. exists t, ev, e'. unfold trace, outcome in *. simpl in *.
    inversion Hout; subst. now repeat split.
Qed.

Lemma stops_at_failure_ret {A : Type} (a : A) (p : Process W) :
  stops_at_failure (ret a p).
Proof. left. constructor. Qed.

Lemma stops_at_failure_lift {A : Type} (r : Result A) (p : Process W) :
  stops_at_failure (lift r p).
Proof. left. destruct r; constructor. Qed.

Lemma stops_at_failure_print (s : string) (p : Process W) :
  stops_at_failure (print s p).
Proof. left. constructor; [reflexivity|constructor]. Qed.

Lemma stops_at_failure_llm_invoke (provider : Provider W) (llm : ChatOpenAI)
    (msgs : list Message) (p : Process W) :
  stops_at_failure (llm_invoke provider llm msgs p).
Proof.
  unfold llm_invoke. destruct (chat provider llm msgs (world p)) as [w [s|e]].
  - left. constructor; [reflexivity|constructor].
  - right. exists [], (EvChat llm msgs (Raise e)), e. repeat split. constructor.
Qed.

Lemma stops_at_failure_structured_invoke (provider : Provider W)
    (llm : ChatOpenAI) (so : StructuredOutput) (msgs : list Message)
    (p : Process W) :
  stops_at_failure (structured_invoke provider llm so msgs p).
Proof.
  unfold structured_invoke.
  destruct (chat_structured provider llm so msgs (world p)) as [w [v|e]].
  - left. constructor; [reflexivity|constructor].
  - right. exists [], (EvChatStructured llm so msgs (Raise e)), e.
    repeat split. constructor.
Qed.

Lemma stops_at_failure_retriever_invoke (retriever : Retriever W) (q : string)
    (p : Process W) :
  stops_at_failure (retriever_invoke retriever q p).
Proof.
  unfold retriever_invoke. destruct (retriever q (world p)) as [w [docs|e]].
  - left. constructor; [reflexivity|constructor].
  - right. exists [], (EvRetrieve q (Raise e)), e. repeat split. constructor.
Qed.

(** What [stops_at_failure] says about any raising event of the trace. *)
Lemma stops_at_failure_last {A : Type} (x : Process W * list Event * Result A) :
  stops_at_failure x ->
  forall t1 ev t2 e,
    trace x = t1 ++ ev :: t2 -> raised ev = Some e ->
    t2 = [] /\ outcome x = Raise e.
Proof.
  intros [Hc|(t & ev' & e' & Ht & Hc & Hev & Hout)] t1 ev t2 e Htrace Hraised.
  - rewrite Htrace in Hc. apply Forall_app in Hc as [_ Hc].
    inversion Hc; subst. congruence.
  - rewrite Ht in Htrace.
    destruct (exists_last (l := ev :: t2)) as (front & lst & Hsplit); [discriminate|].
    rewrite Hsplit, app_assoc in Htrace.
    apply app_inj_tail in Htrace as [Hfront ->].
    destruct t2 as [|ev2 t2].
    + destruct front as [|f front]; simpl in Hsplit.
      * inversion Hsplit; subst. split; [reflexivity|congruence].
      * inversion Hsplit as [[Hf Hnil]]. destruct front; discriminate.
    + exfalso. destruct front as [|f front]; simpl in Hsplit; [discriminate|].
      inversion Hsplit; subst f. subst t.
      apply Forall_app in Hc as [_ Hc]. inversion Hc; subst. congruence.
Qed.

(** Sequencing preserves independence from the module globals. *)
Lemma ignores_globals_bind {A B : Type} (m : M W A) (k : A -> M W B) :
  ignores_globals m ->
  (forall a, ignores_globals (k a)) ->
  ignores_globals (bind m k).
Proof.
  intros Hm Hk g g' w. unfold bind.
  destruct (Hm g g' w) as (Hg & Hw & Ht & Ho).
  destruct (Hm g' g' w) as (Hg' & _).
  destruct (m (mkProcess g w)) as [[[g1 w1] t1] r1].
  destruct (m (mkProcess g' w)) as [[[g1' w1'] t1'] r1'].
  unfold final, trace, outcome in *. simpl in *. subst.
  destruct r1' as [a|e]; [|repeat split].
  destruct (Hk a g g' w1') as (Kg & Kw & Kt & Ko).
  destruct (k a (mkProcess g w1')) as [[p2 t2] r2].
  destruct (k a (mkProcess g' w1')) as [[p2' t2'] r2'].
  unfold final, trace, outcome in *. simpl in *. subst.
  repeat split; assumption.
Qed.

Lemma ignores_globals_ret {A : Type} (a : A) : ignores_globals (@ret W A a).
Proof. intros g g' w. repeat split. Qed.

Lemma ignores_globals_print (s : string) : ignores_globals (@print W s).
Proof. intros g g' w. repeat split. Qed.

Lemma ignores_globals_llm_invoke (provider : Provider W) (llm : ChatOpenAI)
    (msgs : list Message) :
  ignores_globals (llm_invoke provider llm msgs).
Proof.
  intros g g' w. unfold llm_invoke. simpl.
  destruct (chat provider llm msgs w) as [w1 r]. repeat split.
Qed.

Lemma ignores_globals_retriever_invoke (retriever : Retriever W) (q : string) :
  ignores_globals (retriever_invoke retriever q).
Proof.
  intros g g' w. unfold retriever_invoke. simpl.
  destruct (retriever q w) as [w1 r]. repeat split.
Qed.

End MonadFacts.

Create HintDb runs.

#[local] Hint Resolve
  stops_at_failure_ret stops_at_failure_lift stops_at_failure_print
  stops_at_failure_llm_invoke stops_at_failure_structured_invoke
  stops_at_failure_retriever_invoke
  ignores_globals_ret ignores_globals_print ignores_globals_llm_invoke
  ignores_globals_retriever_invoke : runs.

(** Walk down a chain of [bind]s. *)
Ltac chain_stops :=
  repeat (apply stops_at_failure_bind; [|intros]); auto with runs.

Ltac chain_ignores :=
  repeat (apply ignores_globals_bind; [|intros]); auto with runs.

(** ** The loop of [rag_evaluation] *)

Section LoopFacts.

Variable W : Type.
Variable provider : Provider W.
Variable retriever : Retriever W.
Variable num_questions : Z.

Abbreviation body := (Evaluation.loop_body W provider retriever num_questions).
Abbreviation loop := (Evaluation.for_enumerate W provider retriever num_questions).

(** The three ways an iteration can go. *)
Lemma loop_body_cases (i : nat) (q : string) (results : list string) (p : Process W) :
  match retriever q (world p) with
  | (w1, Raise e) =>
      body i q results p
      = (mkProcess (globals p) w1, [EvRetrieve q (Raise e)], Raise e)
  | (w1, Ok docs) =>
      let msgs :=
        Evaluation.to_messages
          (Evaluation.eval_prompt q (join nl (map page_content docs))) in
      match chat provider Evaluation.llm msgs w1 with
      | (w2, Raise e) =>
          body i q results p
          = (mkProcess (globals p) w2,
             [EvRetrieve q (Ok docs); EvChat Evaluation.llm msgs (Raise e)],
             Raise e)
      | (w2, Ok reply) =>
          body i q results p
          = (mkProcess (globals p) w2,
             iteration_events num_questions i (mkIteration q docs reply),
             Ok results)
      end
  end.
Proof.
  unfold Evaluation.loop_body, Evaluation.eval_chain_invoke, bind,
    retriever_invoke, llm_invoke, print, ret.
  destruct (retriever q (world p)) as [w1 [docs|e]]; [|reflexivity].
  cbv zeta. simpl world.
  destruct (chat provider Evaluation.llm _ w1) as [w2 [reply|e]]; reflexivity.
Qed.

Lemma for_enumerate_cons (i : nat) (q : string) (rest results : list string)
    (p : Process W) :
  loop i (q :: rest) results p
  = match body i q results p with
    | (p1, t1, Ok r1) =>
        match loop (S i) rest r1 p1 with
        | (p2, t2, r) => (p2, t1 ++ t2, r)
        end
    | (p1, t1, Raise e) => (p1, t1, Raise e)
    end.
Proof. reflexivity. Qed.

(** Case analysis on the first iteration of a non-empty loop. *)
Ltac first_iteration i q results p :=
  rewrite (for_enumerate_cons i q _ results p);
  let H := fresh "Hbody" in
  pose proof (loop_body_cases i q results p) as H;
  destruct (retriever q (world p)) as [?w [?docs|?e]];
  [ cbv zeta in H;
    destruct (chat provider Evaluation.llm _ _) as [?w [?reply|?e]] | ];
  rewrite H; clear H.

(** A loop that completes has gone through one completed iteration per
    question and hands back the accumulator it was given. *)
Lemma for_enumerate_ok (qs : list string) :
  forall (i : nat) (results : list string) (p p' : Process W)
         (t : list Event) (res : list string),
    loop i qs results p = (p', t, Ok res) ->
    res = results /\
    globals p' = globals p /\
    exists its, map it_question its = qs /\ t = loop_events num_questions i its.
Proof.
  induction qs as [|q rest IH]; intros i results p p' t res Hrun.
  - inversion Hrun; subst. repeat split. now exists [].
  - revert Hrun. first_iteration i q results p; try discriminate.
    destruct (loop (S i) rest results (mkProcess (globals p) w0))
      as [[p2 t2] r2] eqn:Hrest.
    intros Hrun; inversion Hrun; subst.
    destruct (IH _ _ _ _ _ _ Hrest) as (-> & Hg & its & Hq & ->).
    repeat split; [exact Hg|].
    exists (mkIteration q docs reply :: its). simpl. now rewrite Hq.
Qed.

Lemma loop_body_stops (i : nat) (q : string) (results : list string)
    (p : Process W) :
  stops_at_failure (body i q results p).
Proof. unfold Evaluation.loop_body, Evaluation.eval_chain_invoke. chain_stops. Qed.

Lemma for_enumerate_stops (qs : list string) :
  forall (i : nat) (results : list string) (p : Process W),
    stops_at_failure (loop i qs results p).
Proof.
  induction qs as [|q rest IH]; intros i results p; simpl.
  - apply stops_at_failure_ret.
  - apply stops_at_failure_bind; [apply loop_body_stops|intros; apply IH].
Qed.

Lemma loop_body_ignores_globals (i : nat) (q : string) (results : list string) :
  ignores_globals (body i q results).
Proof.
  unfold Evaluation.loop_body, Evaluation.eval_chain_invoke. chain_ignores.
Qed.

Lemma for_enumerate_ignores_globals (qs : list string) :
  forall (i : nat) (results : list string),
    ignores_globals (loop i qs results).
Proof.
  induction qs as [|q rest IH]; intros i results; simpl.
  - apply ignores_globals_ret.
  - apply ignores_globals_bind; [apply loop_body_ignores_globals|intros; apply IH].
Qed.

(** The loop after [qs1] goes on with the accumulator as it then is. *)
Lemma for_enumerate_app (qs1 qs2 : list string) :
  forall (i : nat) (results : list string) (p : Process W),
    loop i (qs1 ++ qs2) results p
    = bind (loop i qs1 results)
        (fun results' => loop (i + length qs1) qs2 results') p.
Proof.
  induction qs1 as [|q rest IH]; intros i results p.
  - simpl. unfold bind, ret. rewrite Nat.add_0_r.
    now destruct (loop i qs2 results p) as [[p2 t2] r].
  - simpl. unfold bind.
    destruct (body i q results p) as [[p1 t1] [r1|e]]; [|reflexivity].
    rewrite IH. unfold bind.
    destruct (loop (S i) rest r1 p1) as [[p2 t2] [r2|e]]; [|reflexivity].
    replace (i + S (length rest))%nat with (S i + length rest)%nat by lia.
    destruct (loop (S i + length rest) qs2 r2 p2) as [[p3 t3] r3].
    now rewrite app_assoc.
Qed.

(** No iteration issues the question-generation call again: the rating
    prompt starts with a line feed, the generation prompt with a letter. *)
Lemma eval_prompt_is_not_question_gen (q c : string) (n : Z) (topic : string) :
  String.eqb (Evaluation.eval_prompt q c) (Evaluation.question_gen_prompt n topic)
  = false.
Proof. apply String.eqb_neq. discriminate. Qed.

Lemma for_enumerate_no_question_gen (n : Z) (topic : string) (qs : list string) :
  forall (i : nat) (results : list string) (p : Process W),
    filter (is_question_gen_call n topic) (trace (loop i qs results p)) = [].
Proof.
  induction qs as [|q rest IH]; intros i results p; [reflexivity|].
  first_iteration i q results p.
  - specialize (IH (S i) results (mkProcess (globals p) w0)).
    destruct (loop (S i) rest results (mkProcess (globals p) w0)) as [[p2 t2] r2].
    unfold trace in *. cbn [fst snd] in *.
    rewrite filter_app, IH, app_nil_r.
    unfold iteration_events, iteration_lines.
    cbn [filter map is_question_gen_call Evaluation.to_messages content].
    now rewrite eval_prompt_is_not_question_gen.
  - unfold trace. cbn [fst snd filter is_question_gen_call Evaluation.to_messages content].
    now rewrite eval_prompt_is_not_question_gen.
  - reflexivity.
Qed.

(** Every retrieval that returned is followed by the rating call built
    from its documents, and there are no other calls to the model. *)
Lemma for_enumerate_rating_calls (qs : list string) :
  forall (i : nat) (results : list string) (p : Process W),
    chat_calls (trace (loop i qs results p))
    = map (fun qd =>
             Evaluation.to_messages
               (Evaluation.eval_prompt (fst qd)
                  (join nl (map page_content (snd qd)))))
        (retrievals (trace (loop i qs results p))).
Proof.
  induction qs as [|q rest IH]; intros i results p; [reflexivity|].
  first_iteration i q results p; try reflexivity.
  specialize (IH (S i) results (mkProcess (globals p) w0)).
  destruct (loop (S i) rest results (mkProcess (globals p) w0)) as [[p2 t2] r2].
  unfold trace in *. cbn [fst snd] in *.
  rewrite chat_calls_app, retrievals_app, map_app, IH. reflexivity.
Qed.

(** The queries issued are the questions, in order, up to the point the
    loop got to. *)
Lemma for_enumerate_queries_prefix (qs : list string) :
  forall (i : nat) (results : list string) (p : Process W),
    exists rest, qs = retrieved_queries (trace (loop i qs results p)) ++ rest.
Proof.
  induction qs as [|q rest IH]; intros i results p; [now exists []|].
  first_iteration i q results p.
  - destruct (IH (S i) results (mkProcess (globals p) w0)) as [rest' Hrest'].
    destruct (loop (S i) rest results (mkProcess (globals p) w0)) as [[p2 t2] r2].
    unfold trace in *. cbn [fst snd] in *.
    exists rest'. rewrite retrieved_queries_app. simpl. now rewrite <- Hrest'.
  - now exists rest.
  - now exists rest.
Qed.

End LoopFacts.

(** ** Reading a completed loop *)

Lemma retrieved_queries_loop_events (n : Z) (its : list Iteration) :
  forall i, retrieved_queries (loop_events n i its) = map it_question its.
Proof.
  induction its as [|it rest IH]; intros i; simpl; [reflexivity|].
  f_equal. rewrite <- (IH (S i)). reflexivity.
Qed.

Lemma printed_loop_events (n : Z) (its : list Iteration) :
  forall i, printed (loop_events n i its) = loop_lines n i its.
Proof.
  induction its as [|it rest IH]; intros i; simpl; [reflexivity|].
  do 5 f_equal. rewrite <- (IH (S i)). reflexivity.
Qed.

Lemma length_loop_lines (n : Z) (its : list Iteration) :
  forall i, length (loop_lines n i its) = (5 * length its)%nat.
Proof.
  induction its as [|it rest IH]; intros i; simpl; [reflexivity|].
  rewrite (IH (S i)). lia.
Qed.

(** The first line of the [k]-th block of five is its progress line. *)
Lemma nth_error_loop_lines (n : Z) (its : list Iteration) :
  forall i k, (k < length its)%nat ->
    nth_error (loop_lines n i its) (5 * k)
    = Some (Evaluation.progress_line (i + k) n).
Proof.
  induction its as [|it rest IH]; intros i k Hk; simpl in Hk; [lia|].
  destruct k as [|k].
  - simpl. now rewrite Nat.add_0_r.
  - replace (5 * S k)%nat with (5 + 5 * k)%nat by lia.
    change (loop_lines n i (it :: rest))
      with (iteration_lines n i it ++ loop_lines n (S i) rest).
    rewrite nth_error_app2 by (simpl; lia).
    replace (5 + 5 * k - length (iteration_lines n i it))%nat with (5 * k)%nat
      by (simpl; lia).
    rewrite IH by lia. do 2 f_equal. lia.
Qed.

Lemma retrievals_loop_events (n : Z) (its : list Iteration) :
  forall i,
    retrievals (loop_events n i its)
    = map (fun it => (it_question it, it_context it)) its.
Proof.
  induction its as [|it rest IH]; intros i; simpl; [reflexivity|].
  f_equal. rewrite <- (IH (S i)). reflexivity.
Qed.

Lemma returned_chats_loop_events (n : Z) (its : list Iteration) :
  forall i, returned_chats (loop_events n i its) = map it_eval_result its.
Proof.
  induction its as [|it rest IH]; intros i; simpl; [reflexivity|].
  f_equal. rewrite <- (IH (S i)). reflexivity.
Qed.

(** ** [rag_evaluation] as a whole *)

Section RagEvaluationFacts.

Variable W : Type.
Variable provider : Provider W.
Variable retriever : Retriever W.

Abbreviation rag_evaluation := (Evaluation.rag_evaluation W provider retriever).
Abbreviation rag_evaluation_locals :=
  (Evaluation.rag_evaluation_locals W provider retriever).
Abbreviation for_enumerate := (Evaluation.for_enumerate W provider retriever).
Abbreviation question_gen_messages n topic :=
  (Evaluation.to_messages (Evaluation.question_gen_prompt n topic)).

(** The function body, split at the question-generation call. *)
Lemma rag_evaluation_locals_cases (n : Z) (topic : string) (p : Process W) :
  match chat provider Evaluation.llm (question_gen_messages n topic) (world p) with
  | (w1, Raise e) =>
      rag_evaluation_locals n topic p
      = (mkProcess (globals p) w1,
         [EvChat Evaluation.llm (question_gen_messages n topic) (Raise e)],
         Raise e)
  | (w1, Ok reply) =>
      rag_evaluation_locals n topic p
      = match for_enumerate n 0 (split newline reply) [] (mkProcess (globals p) w1) with
        | (p2, t2, r) =>
            (p2,
             EvChat Evaluation.llm (question_gen_messages n topic) (Ok reply) :: t2,
             match r with
             | Ok results => Ok (split newline reply, results)
             | Raise e => Raise e
             end)
        end
  end.
Proof.
  unfold Evaluation.rag_evaluation_locals, Evaluation.generate_questions,
    Evaluation.question_gen_chain_invoke, bind, llm_invoke, ret.
  destruct (chat provider Evaluation.llm _ (world p)) as [w1 [reply|e]];
    [|reflexivity].
  cbn [app].
  destruct (for_enumerate n 0 (split newline reply) [] (mkProcess (globals p) w1))
    as [[p2 t2] [results|e]]; rewrite ?app_nil_r; reflexivity.
Qed.

Lemma rag_evaluation_of_locals (n : Z) (topic : string) (p : Process W) :
  rag_evaluation n topic p
  = match rag_evaluation_locals n topic p with
    | (p', t, Ok _) => (p', t, Ok PyNone)
    | (p', t, Raise e) => (p', t, Raise e)
    end.
Proof.
  unfold Evaluation.rag_evaluation, bind, ret.
  destruct (rag_evaluation_locals n topic p) as [[p' t] [locals|e]];
    rewrite ?app_nil_r; reflexivity.
Qed.

Lemma rag_evaluation_cases (n : Z) (topic : string) (p : Process W) :
  match chat provider Evaluation.llm (question_gen_messages n topic) (world p) with
  | (w1, Raise e) =>
      rag_evaluation n topic p
      = (mkProcess (globals p) w1,
         [EvChat Evaluation.llm (question_gen_messages n topic) (Raise e)],
         Raise e)
  | (w1, Ok reply) =>
      rag_evaluation n topic p
      = match for_enumerate n 0 (split newline reply) [] (mkProcess (globals p) w1) with
        | (p2, t2, r) =>
            (p2,
             EvChat Evaluation.llm (question_gen_messages n topic) (Ok reply) :: t2,
             match r with
             | Ok _ => Ok PyNone
             | Raise e => Raise e
             end)
        end
  end.
Proof.
  rewrite rag_evaluation_of_locals.
  pose proof (rag_evaluation_locals_cases n topic p) as H.
  destruct (chat provider Evaluation.llm _ (world p)) as [w1 [reply|e]];
    rewrite H; [|reflexivity].
  destruct (for_enumerate n 0 (split newline reply) [] (mkProcess (globals p) w1))
    as [[p2 t2] [results|e]]; reflexivity.
Qed.

(** A run that completes: the generation call, then one completed
    iteration per line of the reply. *)
Lemma rag_evaluation_ok (n : Z) (topic : string) (p : Process W) (v : PyVal) :
  outcome (rag_evaluation n topic p) = Ok v ->
  v = PyNone /\
  exists w1 reply its,
    chat provider Evaluation.llm (question_gen_messages n topic) (world p)
    = (w1, Ok reply) /\
    map it_question its = split newline reply /\
    trace (rag_evaluation n topic p)
    = EvChat Evaluation.llm (question_gen_messages n topic) (Ok reply)
      :: loop_events n 0 its.
Proof.
  pose proof (rag_evaluation_cases n topic p) as H.
  destruct (chat provider Evaluation.llm _ (world p)) as [w1 [reply|e]];
    rewrite H; [|discriminate].
  destruct (for_enumerate n 0 (split newline reply) [] (mkProcess (globals p) w1))
    as [[p2 t2] [results|e]] eqn:Hloop; [|discriminate].
  unfold outcome, trace. cbn [fst snd]. intros Hv. inversion Hv; subst.
  split; [reflexivity|].
  destruct (for_enumerate_ok _ _ _ _ _ _ _ _ _ _ _ Hloop) as (_ & _ & its & Hq & ->).
  now exists w1, reply, its.
Qed.

Lemma retrieved_queries_ok (n : Z) (topic : string) (p : Process W)
    (w1 : W) (reply : string) (v : PyVal) :
  chat provider Evaluation.llm (question_gen_messages n topic) (world p)
  = (w1, Ok reply) ->
  outcome (rag_evaluation n topic p) = Ok v ->
  retrieved_queries (trace (rag_evaluation n topic p)) = split newline reply.
Proof.
  intros Hchat Hok.
  destruct (rag_evaluation_ok _ _ _ _ Hok)
    as (_ & w1' & reply' & its & Hchat' & Hq & Ht).
  rewrite Hchat in Hchat'. inversion Hchat'; subst w1' reply'.
  rewrite Ht. cbn [retrieved_queries flat_map app].
  fold (retrieved_queries (loop_events n 0 its)).
  now rewrite retrieved_queries_loop_events.
Qed.

Lemma printed_ok (n : Z) (topic : string) (p : Process W) (v : PyVal) :
  outcome (rag_evaluation n topic p) = Ok v ->
  exists its,
    map it_question its = retrieved_queries (trace (rag_evaluation n topic p)) /\
    printed (trace (rag_evaluation n topic p)) = loop_lines n 0 its.
Proof.
  intros Hok.
  destruct (rag_evaluation_ok _ _ _ _ Hok)
    as (_ & w1 & reply & its & Hchat & Hq & Ht).
  exists its.
  rewrite (retrieved_queries_ok _ _ _ _ _ _ Hchat Hok), Ht.
  split; [exact Hq|].
  cbn [printed flat_map app]. fold (printed (loop_events n 0 its)).
  apply printed_loop_events.
Qed.

(** C1 (as amended). With [num_questions = 5], [rag_evaluation] issues
    exactly one question-generation call, whatever happens afterwards.
    When that call returns a reply and the run completes, the retriever
    is invoked once per line-feed-separated segment of the reply, in
    order: one more call than the reply has line feeds, which is five
    calls exactly when the reply has four line feeds. Nothing here
    depends on what the retriever returns. *)
Theorem C1_call_counts (topic : string) (p : Process W) :
  length (filter (is_question_gen_call 5 topic)
            (trace (rag_evaluation 5 topic p))) = 1%nat /\
  forall (w1 : W) (reply : string) (v : PyVal),
    chat provider Evaluation.llm (question_gen_messages 5 topic) (world p)
    = (w1, Ok reply) ->
    outcome (rag_evaluation 5 topic p) = Ok v ->
    retrieved_queries (trace (rag_evaluation 5 topic p)) = split newline reply /\
    length (retrieved_queries (trace (rag_evaluation 5 topic p)))
    = S (count newline reply) /\
    (length (retrieved_queries (trace (rag_evaluation 5 topic p))) = 5%nat
     <-> count newline reply = 4%nat).
Proof.
  split.
  - pose proof (rag_evaluation_cases 5 topic p) as H.
    destruct (chat provider Evaluation.llm _ (world p)) as [w1 [reply|e]];
      rewrite H; clear H.
    + pose proof (for_enumerate_no_question_gen W provider retriever 5 5 topic
                    (split newline reply) 0 [] (mkProcess (globals p) w1)) as Hn.
      destruct (for_enumerate 5 0 (split newline reply) [] (mkProcess (globals p) w1))
        as [[p2 t2] r].
      unfold trace in *. cbn [fst snd] in *.
      cbn [filter is_question_gen_call Evaluation.to_messages content].
      now rewrite String.eqb_refl, Hn.
    + unfold trace.
      cbn [fst snd filter is_question_gen_call Evaluation.to_messages content].
      now rewrite String.eqb_refl.
  - intros w1 reply v Hchat Hok.
    rewrite (retrieved_queries_ok _ _ _ _ _ _ Hchat Hok), length_split.
    repeat split; lia.
Qed.

(** C2. Whenever [rag_evaluation] completes, the value it returns is
    [None]; what it leaves behind is the console output. The run is the
    question-generation call followed by one completed iteration for each
    line of the reply, of which there is at least one: each iteration
    retrieved for its question, was rated on the documents retrieved, and
    printed its five lines, which show that question, the text of those
    documents and that rating. Nothing else is printed. *)
Theorem C2_returns_none (n : Z) (topic : string) (p : Process W) (v : PyVal) :
  outcome (rag_evaluation n topic p) = Ok v ->
  v = PyNone /\
  exists w1 reply its,
    chat provider Evaluation.llm (question_gen_messages n topic) (world p)
    = (w1, Ok reply) /\
    map it_question its = split newline reply /\
    its <> [] /\
    retrievals (trace (rag_evaluation n topic p))
    = map (fun it => (it_question it, it_context it)) its /\
    tl (returned_chats (trace (rag_evaluation n topic p)))
    = map it_eval_result its /\
    trace (rag_evaluation n topic p)
    = EvChat Evaluation.llm (question_gen_messages n topic) (Ok reply)
      :: loop_events n 0 its /\
    printed (trace (rag_evaluation n topic p)) = loop_lines n 0 its /\
    length (printed (trace (rag_evaluation n topic p)))
    = (5 * length (split newline reply))%nat.
Proof.
  intros Hok.
  destruct (rag_evaluation_ok _ _ _ _ Hok)
    as (-> & w1 & reply & its & Hchat & Hq & Ht).
  split; [reflexivity|]. exists w1, reply, its.
  assert (Hprinted : printed (trace (rag_evaluation n topic p)) = loop_lines n 0 its).
  { rewrite Ht. cbn [printed flat_map app]. fold (printed (loop_events n 0 its)).
    apply printed_loop_events. }
  split; [exact Hchat|]. split; [exact Hq|]. split.
  { intros ->. simpl in Hq. symmetry in Hq. now apply split_not_nil in Hq. }
  split.
  { rewrite Ht. cbn [retrievals flat_map app].
    fold (retrievals (loop_events n 0 its)). apply retrievals_loop_events. }
  split.
  { rewrite Ht. cbn [returned_chats flat_map app tl].
    fold (returned_chats (loop_events n 0 its)).
    apply returned_chats_loop_events. }
  split; [exact Ht|]. split; [exact Hprinted|].
  now rewrite Hprinted, length_loop_lines, <- Hq, length_map.
Qed.

(** C4. When the generation call returns a reply, the questions are the
    reply split at line feeds, for any [num_questions]: the split always
    succeeds, its segments joined by line feeds give back the reply
    unchanged, none of them contains a line feed, and their number is one
    more than the number of line feeds in the reply. This is the list
    bound to [questions], and the retriever is queried along it. *)
Theorem C4_questions_are_reply_lines (n : Z) (topic : string) (p : Process W)
    (w1 : W) (reply : string) :
  chat provider Evaluation.llm (question_gen_messages n topic) (world p)
  = (w1, Ok reply) ->
  outcome (Evaluation.generate_questions W provider n topic p)
  = Ok (split newline reply) /\
  is_line_split reply (split newline reply) /\
  length (split newline reply) = S (count newline reply) /\
  (forall questions results,
      outcome (rag_evaluation_locals n topic p) = Ok (questions, results) ->
      questions = split newline reply) /\
  exists rest,
    split newline reply
    = retrieved_queries (trace (rag_evaluation n topic p)) ++ rest.
Proof.
  intros Hchat. repeat split.
  - unfold Evaluation.generate_questions, Evaluation.question_gen_chain_invoke,
      bind, llm_invoke, ret. now rewrite Hchat.
  - apply split_not_nil.
  - apply join_split.
  - apply split_segments_free.
  - apply length_split.
  - intros questions results.
    pose proof (rag_evaluation_locals_cases n topic p) as H.
    rewrite Hchat in H. rewrite H.
    destruct (for_enumerate n 0 (split newline reply) [] (mkProcess (globals p) w1))
      as [[p2 t2] [res|e]]; unfold outcome; cbn [snd]; [|discriminate].
    intros Heq. now inversion Heq.
  - pose proof (rag_evaluation_cases n topic p) as H.
    rewrite Hchat in H. rewrite H.
    destruct (for_enumerate_queries_prefix W provider retriever n
                (split newline reply) 0 [] (mkProcess (globals p) w1))
      as [rest Hrest].
    destruct (for_enumerate n 0 (split newline reply) [] (mkProcess (globals p) w1))
      as [[p2 t2] r].
    unfold trace in *. cbn [fst snd] in *. now exists rest.
Qed.

(** C5. In every run, the model calls after the first are the rating
    calls, one for each retrieval that returned and in the same order, and
    the context placed in the rating prompt is the page content of the
    returned documents, in the order returned, joined by single line
    feeds. When the run completes, the retrievals are those of the
    generated questions, in order. *)
Theorem C5_rating_prompt_context (n : Z) (topic : string) (p : Process W) :
  tl (chat_calls (trace (rag_evaluation n topic p)))
  = map (fun qd =>
           Evaluation.to_messages
             (Evaluation.eval_prompt (fst qd)
                (join nl (map page_content (snd qd)))))
      (retrievals (trace (rag_evaluation n topic p))) /\
  forall (w1 : W) (reply : string) (v : PyVal),
    chat provider Evaluation.llm (question_gen_messages n topic) (world p)
    = (w1, Ok reply) ->
    outcome (rag_evaluation n topic p) = Ok v ->
    map fst (retrievals (trace (rag_evaluation n topic p))) = split newline reply.
Proof.
  split.
  - pose proof (rag_evaluation_cases n topic p) as H.
    destruct (chat provider Evaluation.llm _ (world p)) as [w1 [reply|e]];
      rewrite H; clear H; [|reflexivity].
    pose proof (for_enumerate_rating_calls W provider retriever n
                  (split newline reply) 0 [] (mkProcess (globals p) w1)) as Hc.
    destruct (for_enumerate n 0 (split newline reply) [] (mkProcess (globals p) w1))
      as [[p2 t2] r].
    unfold trace in *. cbn [fst snd] in *. exact Hc.
  - intros w1 reply v Hchat Hok.
    destruct (rag_evaluation_ok _ _ _ _ Hok)
      as (_ & w1' & reply' & its & Hchat' & Hq & Ht).
    rewrite Hchat in Hchat'. inversion Hchat'; subst w1' reply'.
    rewrite Ht. cbn [retrievals flat_map app].
    fold (retrievals (loop_events n 0 its)).
    now rewrite retrievals_loop_events, map_map.
Qed.

Lemma rag_evaluation_stops (n : Z) (topic : string) (p : Process W) :
  stops_at_failure (rag_evaluation n topic p).
Proof.
  unfold Evaluation.rag_evaluation, Evaluation.rag_evaluation_locals,
    Evaluation.generate_questions, Evaluation.question_gen_chain_invoke.
  chain_stops. apply for_enumerate_stops.
Qed.

(** C6. Nothing catches an exception. In a run of [rag_evaluation], a
    call to the retriever or to the model that raises is the last event
    of the run: no later question is retrieved, rated or printed, and the
    run itself raises that exception instead of returning anything. The
    same holds for [correctness] and [qa_generator]. *)
Theorem C6_exceptions_propagate (n : Z) (topic : string)
    (inputs outputs ref_outputs : list (string * string)) (context : string)
    (p : Process W) :
  uncaught (rag_evaluation n topic p) /\
  uncaught (LangchainEvaluation.correctness W provider inputs outputs ref_outputs p) /\
  uncaught (LangchainEvaluation.qa_generator W provider context p).
Proof.
  split; [|split]; unfold uncaught; apply stops_at_failure_last.
  - apply rag_evaluation_stops.
  - unfold LangchainEvaluation.correctness. chain_stops.
  - unfold LangchainEvaluation.qa_generator. chain_stops.
Qed.

Lemma rag_evaluation_ignores_globals (n : Z) (topic : string) :
  ignores_globals (rag_evaluation n topic).
Proof.
  unfold Evaluation.rag_evaluation, Evaluation.rag_evaluation_locals,
    Evaluation.generate_questions, Evaluation.question_gen_chain_invoke.
  chain_ignores. apply for_enumerate_ignores_globals.
Qed.

(** C8. The four metric objects built at module load are neither read
    nor written by [rag_evaluation]: a run leaves the module globals as
    they were, in particular as module load made them, and its effect on
    the world, its trace and its outcome are the same whatever the
    globals hold. *)
Theorem C8_metrics_untouched (n : Z) (topic : string) (g g' : Globals) (w : W) :
  globals (final (rag_evaluation n topic (mkProcess g w))) = g /\
  globals (final (rag_evaluation n topic (mkProcess Evaluation.module_load w)))
  = mkGlobals Evaluation.correctness_metric_0 Evaluation.faithfullness_metric_0
      Evaluation.retrieval_relevance_metric_0 Evaluation.answer_relevance_metric_0 /\
  world (final (rag_evaluation n topic (mkProcess g w)))
  = world (final (rag_evaluation n topic (mkProcess g' w))) /\
  trace (rag_evaluation n topic (mkProcess g w))
  = trace (rag_evaluation n topic (mkProcess g' w)) /\
  outcome (rag_evaluation n topic (mkProcess g w))
  = outcome (rag_evaluation n topic (mkProcess g' w)).
Proof.
  destruct (rag_evaluation_ignores_globals n topic g g' w) as (Hg & Hw & Ht & Ho).
  destruct (rag_evaluation_ignores_globals n topic Evaluation.module_load g' w)
    as (Hload & _).
  repeat split; assumption.
Qed.

(** C9. The local list [results] is empty throughout. An iteration that
    completes retrieves, obtains the rating text, prints it after
    ["Evaluation: "], and hands the list on as it received it; after any
    number of iterations the loop goes on with the empty list; and when
    the loop is over the list is still empty. *)
Theorem C9_results_stay_empty (n : Z) (topic : string) (p : Process W) :
  (forall i q results p0 res,
      outcome (Evaluation.loop_body W provider retriever n i q results p0) = Ok res ->
      res = results /\
      exists docs reply,
        trace (Evaluation.loop_body W provider retriever n i q results p0)
        = iteration_events n i (mkIteration q docs reply)) /\
  (forall qs1 qs2 i p0,
      for_enumerate n i (qs1 ++ qs2) [] p0
      = bind (for_enumerate n i qs1 [])
          (fun _ => for_enumerate n (i + length qs1) qs2 []) p0) /\
  (forall questions results,
      outcome (rag_evaluation_locals n topic p) = Ok (questions, results) ->
      results = []).
Proof.
  split; [|split].
  - intros i q results p0 res.
    pose proof (loop_body_cases W provider retriever n i q results p0) as Hb.
    destruct (retriever q (world p0)) as [w1 [docs|e]].
    + cbv zeta in Hb.
      destruct (chat provider Evaluation.llm _ w1) as [w2 [reply|e]];
        rewrite Hb; unfold outcome, trace; cbn [fst snd]; [|discriminate].
      intros Heq. inversion Heq; subst. split; [reflexivity|].
      now exists docs, reply.
    + rewrite Hb. discriminate.
  - intros qs1 qs2 i p0. rewrite for_enumerate_app. unfold bind.
    destruct (for_enumerate n i qs1 [] p0) as [[p1 t1] [res|e]] eqn:Hloop;
      [|reflexivity].
    destruct (for_enumerate_ok _ _ _ _ _ _ _ _ _ _ _ Hloop) as (-> & _).
    reflexivity.
  - intros questions results.
    pose proof (rag_evaluation_locals_cases n topic p) as Hc.
    destruct (chat provider Evaluation.llm _ (world p)) as [w1 [reply|e]];
      rewrite Hc; [|discriminate].
    destruct (for_enumerate n 0 (split newline reply) [] (mkProcess (globals p) w1))
      as [[p2 t2] [res|e]] eqn:Hloop; unfold outcome; cbn [snd]; [|discriminate].
    destruct (for_enumerate_ok _ _ _ _ _ _ _ _ _ _ _ Hloop) as (-> & _).
    intros Heq. now inversion Heq.
Qed.

Lemma progress_lines_ok (n : Z) (topic : string) (p : Process W)
    (w1 : W) (reply : string) (v : PyVal) :
  chat provider Evaluation.llm (question_gen_messages n topic) (world p)
  = (w1, Ok reply) ->
  outcome (rag_evaluation n topic p) = Ok v ->
  forall k, (k < length (split newline reply))%nat ->
    nth_error (printed (trace (rag_evaluation n topic p))) (5 * k)
    = Some (Evaluation.progress_line k n).
Proof.
  intros Hchat Hok k Hk.
  destruct (rag_evaluation_ok _ _ _ _ Hok)
    as (_ & w1' & reply' & its & Hchat' & Hq & Ht).
  rewrite Hchat in Hchat'. inversion Hchat'; subst w1' reply'.
  rewrite Ht. cbn [printed flat_map app]. fold (printed (loop_events n 0 its)).
  rewrite printed_loop_events.
  rewrite <- Hq, length_map in Hk.
  now rewrite (nth_error_loop_lines n its 0 k Hk).
Qed.

End RagEvaluationFacts.

(** ** The graders of [langchain_evaluation.py] *)

Section GraderFacts.

Variable W : Type.
Variable provider : Provider W.

Abbreviation correctness := (LangchainEvaluation.correctness W provider).
Abbreviation qa_generator := (LangchainEvaluation.qa_generator W provider).
Abbreviation grading_messages question ground_truth response :=
  [ mkMessage "system" LangchainEvaluation.correctness_prompt;
    mkMessage "user"
      (LangchainEvaluation.grading_context question ground_truth response) ].
Abbreviation generation_messages context :=
  [ mkMessage "system" LangchainEvaluation.instruct_prompt;
    mkMessage "user" (LangchainEvaluation.generation_prompt context) ].

Lemma conforms_CorrectnessGrade (grade : PyVal) :
  conforms LangchainEvaluation.CorrectnessGrade grade = true ->
  exists items s b,
    grade = PyDict items /\
    lookup items "explaination" = Some (PyStr s) /\
    lookup items "correct" = Some (PyBool b).
Proof.
  destruct grade as [| | |items]; try discriminate.
  unfold conforms.
  cbn [forallb fields LangchainEvaluation.CorrectnessGrade field_name field_type].
  destruct (lookup items "explaination") as [[| |s|]|] eqn:He; try discriminate.
  destruct (lookup items "correct") as [[|b| |]|] eqn:Hc; try discriminate.
  intros _. now exists items, s, b.
Qed.

(** C3 (as amended). When the three texts are present under the keys
    read and the grader returns a grade that conforms to
    [CorrectnessGrade], [correctness] makes exactly that one grader call
    and returns the value of the grade's [correct] field alone: a bare
    boolean, which is not a grade record; the explanation is dropped. *)
Theorem C3_correctness_returns_flag
    (inputs outputs ref_outputs : list (string * string))
    (question ground_truth response : string)
    (p : Process W) (w1 : W) (grade : PyVal) :
  lookup inputs "question" = Some question ->
  lookup ref_outputs "answer" = Some ground_truth ->
  lookup outputs "answer" = Some response ->
  chat_structured provider LangchainEvaluation.grader_model
    LangchainEvaluation.grader_output
    (grading_messages question ground_truth response) (world p)
  = (w1, Ok grade) ->
  conforms LangchainEvaluation.CorrectnessGrade grade = true ->
  exists b,
    getitem grade "correct" = Ok (PyBool b) /\
    outcome (correctness inputs outputs ref_outputs p) = Ok (PyBool b) /\
    trace (correctness inputs outputs ref_outputs p)
    = [EvChatStructured LangchainEvaluation.grader_model
         LangchainEvaluation.grader_output
         (grading_messages question ground_truth response) (Ok grade)] /\
    conforms LangchainEvaluation.CorrectnessGrade (PyBool b) = false /\
    conforms GradeResult (PyBool b) = false.
Proof.
  intros Hq Hgt Hr Hchat Hconf.
  destruct (conforms_CorrectnessGrade grade Hconf) as (items & s & b & -> & _ & Hb).
  exists b.
  assert (Hget : getitem (PyDict items) "correct" = Ok (PyBool b)).
  { unfold getitem. now rewrite Hb. }
  unfold LangchainEvaluation.correctness, getitem_str.
  rewrite Hq, Hgt, Hr.
  unfold bind, lift, ret, structured_invoke. cbn [fst snd].
  rewrite Hchat, Hget.
  now repeat split.
Qed.

(** C7. [qa_generator] makes one call, to the model constrained to the
    [QA_generator] schema, whose fields are exactly [question] and
    [answer], with the instruction as system message and the formatted
    generation prompt as user message; what the call yields, a value or an
    exception, is the outcome of [qa_generator], unchanged. *)
Theorem C7_qa_generator_returns_model_output (context : string) (p : Process W) :
  let reply :=
    chat_structured provider LangchainEvaluation.generator_model
      LangchainEvaluation.generator_output (generation_messages context) (world p) in
  qa_generator context p
  = (mkProcess (globals p) (fst reply),
     [EvChatStructured LangchainEvaluation.generator_model
        LangchainEvaluation.generator_output (generation_messages context)
        (snd reply)],
     snd reply) /\
  schema LangchainEvaluation.generator_output = LangchainEvaluation.QA_generator /\
  map field_name (fields LangchainEvaluation.QA_generator) = ["question"; "answer"].
Proof.
  cbv zeta. split; [|split; reflexivity].
  unfold LangchainEvaluation.qa_generator, bind, ret, structured_invoke.
  destruct (chat_structured provider LangchainEvaluation.generator_model
              LangchainEvaluation.generator_output _ (world p)) as [w1 [v|e]];
    reflexivity.
Qed.

End GraderFacts.

(** ** The progress line *)

(** C10. In a run that completes, the console holds five lines per
    question and the first line of the [k]-th block (counting from 0) is
    ["Evaluated question k+1/num_questions:"]: the denominator is the
    requested [num_questions], not the number of questions parsed from the
    reply. So with more segments than requested a line whose index is
    [num_questions + 1] is printed, and with fewer no printed index
    reaches [num_questions]. *)
Theorem C10_progress_denominator (W : Type) (provider : Provider W)
    (retriever : Retriever W) (n : Z) (topic : string) (p : Process W)
    (w1 : W) (reply : string) (v : PyVal) :
  chat provider Evaluation.llm
    (Evaluation.to_messages (Evaluation.question_gen_prompt n topic)) (world p)
  = (w1, Ok reply) ->
  outcome (Evaluation.rag_evaluation W provider retriever n topic p) = Ok v ->
  length (printed (trace (Evaluation.rag_evaluation W provider retriever n topic p)))
  = (5 * length (split newline reply))%nat /\
  (forall k, (k < length (split newline reply))%nat ->
     nth_error
       (printed (trace (Evaluation.rag_evaluation W provider retriever n topic p)))
       (5 * k)
     = Some ("Evaluated question " ++ str_int (Z.of_nat k + 1) ++ "/"
               ++ str_int n ++ ":")%string) /\
  ((0 <= n < Z.of_nat (length (split newline reply)))%Z ->
     nth_error
       (printed (trace (Evaluation.rag_evaluation W provider retriever n topic p)))
       (5 * Z.to_nat n)
     = Some ("Evaluated question " ++ str_int (n + 1) ++ "/"
               ++ str_int n ++ ":")%string) /\
  ((Z.of_nat (length (split newline reply)) < n)%Z ->
     forall k, (k < length (split newline reply))%nat -> (Z.of_nat k + 1 < n)%Z).
Proof.
  intros Hchat Hok.
  assert (Hlines : forall k, (k < length (split newline reply))%nat ->
     nth_error
       (printed (trace (Evaluation.rag_evaluation W provider retriever n topic p)))
       (5 * k)
     = Some (Evaluation.progress_line k n))
    by (apply (progress_lines_ok W provider retriever n topic p w1 reply v Hchat Hok)).
  split; [|split; [|split]].
  - destruct (printed_ok W provider retriever n topic p v Hok) as (its & Hq & ->).
    rewrite length_loop_lines.
    rewrite (retrieved_queries_ok W provider retriever _ _ _ _ _ _ Hchat Hok) in Hq.
    now rewrite <- Hq, length_map.
  - exact Hlines.
  - intros Hn. rewrite Hlines by lia.
    unfold Evaluation.progress_line. now rewrite Z2Nat.id by lia.
  - intros Hn k Hk. lia.
Qed.

(** ** The statements at concrete collaborators *)

(** C1 as first stated fails: a reply of two lines leads to two retriever
    calls, not five, although [num_questions] is 5. *)
Lemma C1_counterexample :
  ~ (length (filter (is_question_gen_call 5 "climate change")
               (trace (Demo.run Demo.two_lines))) = 1%nat /\
     length (retrieved_queries (trace (Demo.run Demo.two_lines))) = 5%nat).
Proof. intros [_ H]. vm_compute in H. discriminate. Qed.

Lemma C1_witness :
  chat (Demo.provider Demo.five_lines) Evaluation.llm
    (Evaluation.to_messages (Evaluation.question_gen_prompt 5 "climate change"))
    (world Demo.start)
  = (1%nat, Ok Demo.five_lines) /\
  outcome (Demo.run Demo.five_lines) = Ok PyNone /\
  length (retrieved_queries (trace (Demo.run Demo.five_lines))) = 5%nat.
Proof.
  split; [reflexivity|]. split; [reflexivity|].
  destruct (C1_call_counts nat (Demo.provider Demo.five_lines) Demo.retriever
              "climate change" Demo.start) as [_ H].
  destruct (H 1%nat Demo.five_lines PyNone eq_refl eq_refl) as (_ & _ & Hiff).
  apply Hiff. reflexivity.
Defined.

Lemma C2_witness :
  outcome (Demo.run Demo.two_lines) = Ok PyNone /\
  exists w1 reply its,
    chat (Demo.provider Demo.two_lines) Evaluation.llm
      (Evaluation.to_messages (Evaluation.question_gen_prompt 5 "climate change"))
      (world Demo.start)
    = (w1, Ok reply) /\
    map it_question its = split newline reply /\
    its <> [] /\
    retrievals (trace (Demo.run Demo.two_lines))
    = map (fun it => (it_question it, it_context it)) its /\
    tl (returned_chats (trace (Demo.run Demo.two_lines)))
    = map it_eval_result its /\
    trace (Demo.run Demo.two_lines)
    = EvChat Evaluation.llm
        (Evaluation.to_messages (Evaluation.question_gen_prompt 5 "climate change"))
        (Ok reply)
      :: loop_events 5 0 its /\
    printed (trace (Demo.run Demo.two_lines)) = loop_lines 5 0 its /\
    length (printed (trace (Demo.run Demo.two_lines)))
    = (5 * length (split newline reply))%nat.
Proof.
  split; [reflexivity|].
  apply (C2_returns_none nat (Demo.provider Demo.two_lines) Demo.retriever
           5 "climate change" Demo.start PyNone).
  reflexivity.
Defined.

(** C3 as first stated fails: what [correctness] returns for a conforming
    grade is not a grade record under either spelling of the field. *)
Lemma C3_counterexample :
  ~ exists v,
      outcome Demo.grading = Ok v /\
      (conforms GradeResult v = true \/
       conforms LangchainEvaluation.CorrectnessGrade v = true).
Proof.
  intros (v & Hv & Hc). vm_compute in Hv. inversion Hv; subst v.
  destruct Hc as [Hc|Hc]; discriminate.
Qed.

Lemma C3_witness :
  lookup Demo.inputs "question" = Some "What is the capital of France?" /\
  lookup Demo.ref_outputs "answer" = Some "Paris" /\
  lookup Demo.outputs "answer" = Some "The capital of France is Paris." /\
  outcome Demo.grading = Ok (PyBool true).
Proof.
  repeat (split; [reflexivity|]).
  destruct (C3_correctness_returns_flag nat (Demo.provider Demo.two_lines)
              Demo.inputs Demo.outputs Demo.ref_outputs
              "What is the capital of France?" "Paris"
              "The capital of France is Paris." Demo.start 1%nat
              (PyDict [("explaination", PyStr "The response names the same city.");
                       ("correct", PyBool true)])
              eq_refl eq_refl eq_refl eq_refl eq_refl)
    as (b & Hget & Hout & _).
  inversion Hget; subst b. exact Hout.
Defined.

Lemma C4_witness :
  chat (Demo.provider Demo.two_lines) Evaluation.llm
    (Evaluation.to_messages (Evaluation.question_gen_prompt 5 "climate change"))
    (world Demo.start)
  = (1%nat, Ok Demo.two_lines) /\
  outcome (Evaluation.generate_questions nat (Demo.provider Demo.two_lines)
             5 "climate change" Demo.start)
  = Ok ["Q1"; "Q2"].
Proof.
  split; [reflexivity|].
  destruct (C4_questions_are_reply_lines nat (Demo.provider Demo.two_lines)
              Demo.retriever 5 "climate change" Demo.start 1%nat Demo.two_lines
              eq_refl) as (H & _).
  exact H.
Defined.

Lemma C5_witness :
  chat (Demo.provider Demo.two_lines) Evaluation.llm
    (Evaluation.to_messages (Evaluation.question_gen_prompt 5 "climate change"))
    (world Demo.start)
  = (1%nat, Ok Demo.two_lines) /\
  outcome (Demo.run Demo.two_lines) = Ok PyNone /\
  map fst (retrievals (trace (Demo.run Demo.two_lines))) = ["Q1"; "Q2"].
Proof.
  split; [reflexivity|]. split; [reflexivity|].
  destruct (C5_rating_prompt_context nat (Demo.provider Demo.two_lines)
              Demo.retriever 5 "climate change" Demo.start) as [_ H].
  exact (H 1%nat Demo.two_lines PyNone eq_refl eq_refl).
Defined.

Lemma C6_witness :
  trace Demo.flaky_run
  = removelast (trace Demo.flaky_run)
    ++ [EvRetrieve "Q2" (Raise (UpstreamFailure "timeout"))] /\
  retrieved_queries (trace Demo.flaky_run) = ["Q1"; "Q2"] /\
  outcome Demo.flaky_run = Raise (UpstreamFailure "timeout").
Proof.
  split; [reflexivity|]. split; [reflexivity|].
  destruct (C6_exceptions_propagate nat (Demo.provider Demo.five_lines)
              (Demo.flaky_retriever "Q2") 5 "climate change"
              Demo.inputs Demo.outputs Demo.ref_outputs "Water boils at 100 C."
              Demo.start) as [H _].
  exact (proj2 (H (removelast (trace Demo.flaky_run))
                  (EvRetrieve "Q2" (Raise (UpstreamFailure "timeout")))
                  [] (UpstreamFailure "timeout") eq_refl eq_refl)).
Defined.

Lemma C9_witness :
  outcome (Evaluation.rag_evaluation_locals nat (Demo.provider Demo.two_lines)
             Demo.retriever 5 "climate change" Demo.start)
  = Ok (["Q1"; "Q2"], []) /\
  @nil string = [].
Proof.
  split; [reflexivity|].
  destruct (C9_results_stay_empty nat (Demo.provider Demo.two_lines)
              Demo.retriever 5 "climate change" Demo.start) as (_ & _ & H).
  exact (H ["Q1"; "Q2"] [] eq_refl).
Defined.

Lemma C10_witness :
  outcome (Demo.run Demo.six_lines) = Ok PyNone /\
  nth_error (printed (trace (Demo.run Demo.six_lines))) 25
  = Some "Evaluated question 6/5:" /\
  outcome (Demo.run Demo.two_lines) = Ok PyNone /\
  length (printed (trace (Demo.run Demo.two_lines))) = 10%nat.
Proof.
  split; [reflexivity|]. split; [|split; [reflexivity|]].
  - destruct (C10_progress_denominator nat (Demo.provider Demo.six_lines)
                Demo.retriever 5 "climate change" Demo.start 1%nat Demo.six_lines
                PyNone eq_refl eq_refl) as (_ & _ & H & _).
    apply H. vm_compute. split; [discriminate|reflexivity].
  - destruct (C10_progress_denominator nat (Demo.provider Demo.two_lines)
                Demo.retriever 5 "climate change" Demo.start 1%nat Demo.two_lines
                PyNone eq_refl eq_refl) as (H & _).
    exact H.
Defined.

(** * Further properties of the code *)

(** ** Text *)

Lemma length_append (a b : string) :
  String.length (a ++ b) = (String.length a + String.length b)%nat.
Proof. induction a as [|c a IH]; simpl; [reflexivity|]. now rewrite IH. Qed.

Lemma append_inv_head (a x y : string) :
  (a ++ x)%string = (a ++ y)%string -> x = y.
Proof.
  induction a as [|c a IH]; simpl; intros H; [exact H|].
  injection H as H. now apply IH.
Qed.

Lemma append_inv_tail (b : string) :
  forall x y : string, (x ++ b)%string = (y ++ b)%string -> x = y.
Proof.
  induction x as [|c x IH]; intros [|d y] H; simpl in H.
  - reflexivity.
  - exfalso. apply (f_equal String.length) in H.
    simpl in H. rewrite length_append in H. lia.
  - exfalso. apply (f_equal String.length) in H.
    simpl in H. rewrite length_append in H. lia.
  - injection H as -> H. f_equal. now apply IH.
Qed.

(** Splitting distributes over a separator between two texts. *)
Lemma split_app_sep (sep : ascii) (a b : string) :
  split sep (a ++ String sep b)%string = split sep a ++ split sep b.
Proof.
  induction a as [|c a IH]; simpl.
  - now rewrite Ascii.eqb_refl.
  - destruct (Ascii.eqb c sep); [now rewrite IH|].
    rewrite IH.
    pose proof (split_not_nil sep a) as Hnil.
    destruct (split sep a) as [|seg segs]; [contradiction|reflexivity].
Qed.

(** ** [correctness]: keys and grades *)

Section CorrectnessFacts.

Variable W : Type.
Variable provider : Provider W.

Abbreviation correctness := (LangchainEvaluation.correctness W provider).
Abbreviation grading_messages question ground_truth response :=
  [ mkMessage "system" LangchainEvaluation.correctness_prompt;
    mkMessage "user"
      (LangchainEvaluation.grading_context question ground_truth response) ].

(** X1. A missing key stops [correctness] before the grader is called:
    the keys are read in the order [inputs["question"]],
    [ref_outputs["answer"]], [outputs["answer"]], the first one absent
    raises [KeyError] for that key, nothing is sent to the model and the
    process is left as it was. *)
Theorem X1_correctness_missing_key
    (inputs outputs ref_outputs : list (string * string)) (p : Process W) :
  (lookup inputs "question" = None ->
   correctness inputs outputs ref_outputs p = (p, [], Raise (KeyError "question"))) /\
  (forall question,
     lookup inputs "question" = Some question ->
     lookup ref_outputs "answer" = None ->
     correctness inputs outputs ref_outputs p = (p, [], Raise (KeyError "answer"))) /\
  (forall question ground_truth,
     lookup inputs "question" = Some question ->
     lookup ref_outputs "answer" = Some ground_truth ->
     lookup outputs "answer" = None ->
     correctness inputs outputs ref_outputs p = (p, [], Raise (KeyError "answer"))).
Proof.
  unfold LangchainEvaluation.correctness, getitem_str.
  split; [|split].
  - intros ->. reflexivity.
  - intros question -> ->. reflexivity.
  - intros question ground_truth -> -> ->. reflexivity.
Qed.

(** X2. The grade is not validated. When the three keys are present and
    the grader returns, [correctness] has made that one call and hands
    back whatever the grade holds under ["correct"], of any type and
    whether or not an explanation is present; a dict without that key
    raises [KeyError], and a grade that is not a dict raises
    [TypeError]. *)
Theorem X2_correctness_grade_unvalidated
    (inputs outputs ref_outputs : list (string * string))
    (question ground_truth response : string)
    (p : Process W) (w1 : W) (grade : PyVal) :
  lookup inputs "question" = Some question ->
  lookup ref_outputs "answer" = Some ground_truth ->
  lookup outputs "answer" = Some response ->
  chat_structured provider LangchainEvaluation.grader_model
    LangchainEvaluation.grader_output
    (grading_messages question ground_truth response) (world p)
  = (w1, Ok grade) ->
  final (correctness inputs outputs ref_outputs p) = mkProcess (globals p) w1 /\
  trace (correctness inputs outputs ref_outputs p)
  = [EvChatStructured LangchainEvaluation.grader_model
       LangchainEvaluation.grader_output
       (grading_messages question ground_truth response) (Ok grade)] /\
  (forall items x,
     grade = PyDict items -> lookup items "correct" = Some x ->
     outcome (correctness inputs outputs ref_outputs p) = Ok x) /\
  (forall items,
     grade = PyDict items -> lookup items "correct" = None ->
     outcome (correctness inputs outputs ref_outputs p) = Raise (KeyError "correct")) /\
  ((forall items, grade <> PyDict items) ->
     exists msg,
       outcome (correctness inputs outputs ref_outputs p) = Raise (TypeError msg)).
Proof.
  intros Hq Hgt Hr Hchat.
  assert (Hrun : correctness inputs outputs ref_outputs p
                 = match getitem grade "correct" with
                   | Ok x =>
                       (mkProcess (globals p) w1,
                        [EvChatStructured LangchainEvaluation.grader_model
                           LangchainEvaluation.grader_output
                           (grading_messages question ground_truth response)
                           (Ok grade)],
                        Ok x)
                   | Raise e =>
                       (mkProcess (globals p) w1,
                        [EvChatStructured LangchainEvaluation.grader_model
                           LangchainEvaluation.grader_output
                           (grading_messages question ground_truth response)
                           (Ok grade)],
                        Raise e)
                   end).
  { unfold LangchainEvaluation.correctness, getitem_str.
    rewrite Hq, Hgt, Hr.
    unfold bind, lift, ret, raise, structured_invoke. cbn [fst snd].
    rewrite Hchat. now destruct (getitem grade "correct"). }
  rewrite Hrun. repeat split.
  - now destruct (getitem grade "correct").
  - now destruct (getitem grade "correct").
  - intros items x -> Hx. unfold getitem. now rewrite Hx.
  - intros items -> Hx. unfold getitem. now rewrite Hx.
  - intros Hnot. destruct grade as [| b | s | items];
      try (eexists; reflexivity).
    now destruct (Hnot items).
Qed.

End CorrectnessFacts.

(** ** [rag_evaluation]: edges and failures *)

Lemma returned_chats_app (t1 t2 : list Event) :
  returned_chats (t1 ++ t2) = returned_chats t1 ++ returned_chats t2.
Proof. apply flat_map_app. Qed.

Section EvaluatorEdges.

Variable W : Type.
Variable provider : Provider W.
Variable retriever : Retriever W.

Abbreviation rag_evaluation := (Evaluation.rag_evaluation W provider retriever).
Abbreviation body := (Evaluation.loop_body W provider retriever).
Abbreviation loop := (Evaluation.for_enumerate W provider retriever).
Abbreviation question_gen_messages n topic :=
  (Evaluation.to_messages (Evaluation.question_gen_prompt n topic)).
Abbreviation rating_messages q docs :=
  (Evaluation.to_messages
     (Evaluation.eval_prompt q (join nl (map page_content docs)))).

(** Case analysis on the first iteration, then on the rest of the loop. *)
Ltac iteration_cases n i q results p :=
  rewrite (for_enumerate_cons W provider retriever n i q _ results p);
  let H := fresh "Hbody" in
  pose proof (loop_body_cases W provider retriever n i q results p) as H;
  destruct (retriever q (world p)) as [?w [?docs|?e]];
  [ cbv zeta in H;
    destruct (chat provider Evaluation.llm _ _) as [?w [?reply|?e]] | ];
  rewrite H; clear H.

Lemma for_enumerate_first_query (n : Z) (i : nat) (q : string)
    (rest results : list string) (p : Process W) :
  hd_error (retrieved_queries (trace (loop n i (q :: rest) results p))) = Some q.
Proof.
  iteration_cases n i q results p; try reflexivity.
  now destruct (loop n (S i) rest results (mkProcess (globals p) w0)) as [[p2 t2] r2].
Qed.

(** Whatever way the loop ends, the console holds whole blocks, one for
    each iteration whose rating call returned; at most one more question
    was sent to the retriever. *)
Lemma for_enumerate_console (n : Z) (qs : list string) :
  forall (i : nat) (results : list string) (p : Process W),
    exists its extra,
      retrieved_queries (trace (loop n i qs results p))
      = map it_question its ++ extra /\
      (length extra <= 1)%nat /\
      printed (trace (loop n i qs results p)) = loop_lines n i its /\
      returned_chats (trace (loop n i qs results p)) = map it_eval_result its.
Proof.
  induction qs as [|q rest IH]; intros i results p.
  - exists [], []. repeat split. simpl. lia.
  - iteration_cases n i q results p.
    + destruct (IH (S i) results (mkProcess (globals p) w0))
        as (its & extra & Hq & Hlen & Hp & Hr).
      destruct (loop n (S i) rest results (mkProcess (globals p) w0)) as [[p2 t2] r2].
      unfold trace in *. cbn [fst snd] in *.
      exists (mkIteration q docs reply :: its), extra.
      rewrite retrieved_queries_app, printed_app, returned_chats_app, Hq, Hp, Hr.
      repeat split. exact Hlen.
    + exists [], [q]. repeat split. simpl. lia.
    + exists [], [q]. repeat split. simpl. lia.
Qed.

Lemma for_enumerate_evaluator_events (n : Z) (qs : list string) :
  forall (i : nat) (results : list string) (p : Process W),
    Forall evaluator_event (trace (loop n i qs results p)).
Proof.
  assert (Hhuman : forall text,
            Evaluation.llm = Evaluation.llm /\
            exists text', Evaluation.to_messages text = [mkMessage "human" text'])
    by (intros text; split; [reflexivity|now exists text]).
  induction qs as [|q rest IH]; intros i results p; [constructor|].
  iteration_cases n i q results p.
  - specialize (IH (S i) results (mkProcess (globals p) w0)).
    destruct (loop n (S i) rest results (mkProcess (globals p) w0)) as [[p2 t2] r2].
    unfold trace in *. cbn [fst snd] in *.
    apply Forall_app. split; [|exact IH].
    unfold iteration_events, iteration_lines.
    repeat (constructor; [first [exact I | apply Hhuman]|]). constructor.
  - unfold trace. cbn [fst snd].
    repeat (constructor; [first [exact I | apply Hhuman]|]). constructor.
  - unfold trace. cbn [fst snd]. repeat constructor.
Qed.

(** X4. An empty retrieval is not treated specially: when the retriever
    returns no document, the rating call is still made, with the empty
    text as context, and the iteration prints its block with nothing
    after ["Context: "]. *)
Theorem X4_empty_retrieval (n : Z) (i : nat) (q : string)
    (results : list string) (p : Process W) (w1 w2 : W) (rating : string) :
  retriever q (world p) = (w1, Ok []) ->
  chat provider Evaluation.llm
    (Evaluation.to_messages (Evaluation.eval_prompt q EmptyString)) w1
  = (w2, Ok rating) ->
  body n i q results p
  = (mkProcess (globals p) w2,
     [ EvRetrieve q (Ok []);
       EvChat Evaluation.llm
         (Evaluation.to_messages (Evaluation.eval_prompt q EmptyString))
         (Ok rating);
       EvPrint (Evaluation.progress_line i n);
       EvPrint ("Question: " ++ q)%string;
       EvPrint "Context: ";
       EvPrint ("Evaluation: " ++ rating)%string;
       EvPrint Evaluation.separator_line ],
     Ok results).
Proof.
  intros Hret Hchat.
  pose proof (loop_body_cases W provider retriever n i q results p) as H.
  rewrite Hret in H. cbv zeta in H.
  change (join nl (map page_content [])) with EmptyString in H.
  rewrite Hchat in H. exact H.
Qed.

(** X7. A failure ends the loop where it happens and what comes after is
    never looked at. If the loop gets through [qs1] and the retriever
    then raises on [q], or returns and the rating call raises, the loop
    over [qs1 ++ q :: qs2] is the run over [qs1] followed by the failing
    call or calls, and it raises that exception, whatever [qs2] is. *)
Theorem X7_failure_point (n : Z) (qs1 : list string) (q : string)
    (qs2 : list string) (i : nat) (results : list string)
    (p p1 : Process W) (t1 : list Event) (res : list string) :
  loop n i qs1 results p = (p1, t1, Ok res) ->
  (forall w' e,
     retriever q (world p1) = (w', Raise e) ->
     loop n i (qs1 ++ q :: qs2) results p
     = (mkProcess (globals p1) w', t1 ++ [EvRetrieve q (Raise e)], Raise e)) /\
  (forall w' docs w'' e,
     retriever q (world p1) = (w', Ok docs) ->
     chat provider Evaluation.llm (rating_messages q docs) w' = (w'', Raise e) ->
     loop n i (qs1 ++ q :: qs2) results p
     = (mkProcess (globals p1) w'',
        t1 ++ [EvRetrieve q (Ok docs);
               EvChat Evaluation.llm (rating_messages q docs) (Raise e)],
        Raise e)).
Proof.
  intros Hloop.
  assert (Hsplit :
    loop n i (qs1 ++ q :: qs2) results p
    = match loop n (i + length qs1) (q :: qs2) res p1 with
      | (p2, t2, r) => (p2, t1 ++ t2, r)
      end).
  { rewrite for_enumerate_app. unfold bind. now rewrite Hloop. }
  rewrite Hsplit. split.
  - intros w' e Hret.
    rewrite (for_enumerate_cons W provider retriever n).
    pose proof (loop_body_cases W provider retriever n (i + length qs1) q res p1) as H.
    rewrite Hret in H. now rewrite H.
  - intros w' docs w'' e Hret Hchat.
    rewrite (for_enumerate_cons W provider retriever n).
    pose proof (loop_body_cases W provider retriever n (i + length qs1) q res p1) as H.
    rewrite Hret in H. cbv zeta in H. rewrite Hchat in H. now rewrite H.
Qed.

(** X3. The retriever is reached exactly when question generation
    returns. If the generation call raises, that call is the whole run:
    no retrieval, nothing printed, the exception raised. If it returns,
    the retriever is invoked at least once, first with the text of the
    reply up to its first line feed; for an empty reply that is the empty
    query. *)
Theorem X3_first_query (n : Z) (topic : string) (p : Process W) :
  (forall w1 e,
     chat provider Evaluation.llm (question_gen_messages n topic) (world p)
     = (w1, Raise e) ->
     retrieved_queries (trace (rag_evaluation n topic p)) = [] /\
     printed (trace (rag_evaluation n topic p)) = [] /\
     length (trace (rag_evaluation n topic p)) = 1%nat /\
     outcome (rag_evaluation n topic p) = Raise e) /\
  (forall w1 reply,
     chat provider Evaluation.llm (question_gen_messages n topic) (world p)
     = (w1, Ok reply) ->
     exists first rest,
       split newline reply = first :: rest /\
       count newline first = 0%nat /\
       hd_error (retrieved_queries (trace (rag_evaluation n topic p))) = Some first) /\
  (forall w1,
     chat provider Evaluation.llm (question_gen_messages n topic) (world p)
     = (w1, Ok EmptyString) ->
     hd_error (retrieved_queries (trace (rag_evaluation n topic p)))
     = Some EmptyString).
Proof.
  assert (Hfirst : forall w1 reply,
     chat provider Evaluation.llm (question_gen_messages n topic) (world p)
     = (w1, Ok reply) ->
     hd_error (retrieved_queries (trace (rag_evaluation n topic p)))
     = hd_error (split newline reply)).
  { intros w1 reply Hchat.
    pose proof (rag_evaluation_cases W provider retriever n topic p) as H.
    rewrite Hchat in H. rewrite H. clear H.
    pose proof (split_not_nil newline reply) as Hnil.
    destruct (split newline reply) as [|first rest]; [contradiction|].
    pose proof (for_enumerate_first_query n 0 first rest []
                  (mkProcess (globals p) w1)) as Hq.
    destruct (loop n 0 (first :: rest) [] (mkProcess (globals p) w1))
      as [[p2 t2] r].
    unfold trace in *. cbn [fst snd] in *. exact Hq. }
  split; [|split].
  - intros w1 e Hchat.
    pose proof (rag_evaluation_cases W provider retriever n topic p) as H.
    rewrite Hchat in H. rewrite H. now repeat split.
  - intros w1 reply Hchat. rewrite (Hfirst w1 reply Hchat).
    pose proof (split_not_nil newline reply) as Hnil.
    pose proof (split_segments_free newline reply) as Hfree.
    destruct (split newline reply) as [|first rest]; [contradiction|].
    exists first, rest. inversion Hfree; subst. now repeat split.
  - intros w1 Hchat. now rewrite (Hfirst w1 EmptyString Hchat).
Qed.

(** X5. Line feeds in the reply are taken as they come. A reply made of
    two texts with a line feed between them gives the questions of the
    first followed by those of the second; so a reply that ends with a
    line feed gives a last question that is empty, and a blank line gives
    an empty question in the middle. *)
Theorem X5_reply_line_feeds (n : Z) (topic : string) (p : Process W)
    (w1 : W) (a b : string) :
  chat provider Evaluation.llm (question_gen_messages n topic) (world p)
  = (w1, Ok (a ++ nl ++ b)%string) ->
  outcome (Evaluation.generate_questions W provider n topic p)
  = Ok (split newline a ++ split newline b) /\
  (b = EmptyString ->
   outcome (Evaluation.generate_questions W provider n topic p)
   = Ok (split newline a ++ [EmptyString])) /\
  (forall c, b = (nl ++ c)%string ->
   outcome (Evaluation.generate_questions W provider n topic p)
   = Ok (split newline a ++ EmptyString :: split newline c)).
Proof.
  intros Hchat.
  assert (Hout : outcome (Evaluation.generate_questions W provider n topic p)
                 = Ok (split newline a ++ split newline b)).
  { unfold Evaluation.generate_questions, Evaluation.question_gen_chain_invoke,
      bind, llm_invoke, ret. rewrite Hchat.
    unfold outcome. cbn [snd]. f_equal.
    change (a ++ nl ++ b)%string with (a ++ String newline b)%string.
    apply split_app_sep. }
  split; [exact Hout|split].
  - intros ->. exact Hout.
  - intros c ->. rewrite Hout.
    change (nl ++ c)%string with (String newline c).
    cbn [split]. now rewrite Ascii.eqb_refl.
Qed.

(** X6. The console of any run, complete or not, is made of whole
    blocks of five lines, one for each rating that came back: an
    iteration whose retrieval or rating fails prints none of its lines,
    and the blocks printed before it stay. *)
Theorem X6_console_blocks (n : Z) (topic : string) (p : Process W) :
  exists its extra,
    retrieved_queries (trace (rag_evaluation n topic p))
    = map it_question its ++ extra /\
    (length extra <= 1)%nat /\
    printed (trace (rag_evaluation n topic p)) = loop_lines n 0 its /\
    map it_eval_result its = tl (returned_chats (trace (rag_evaluation n topic p))) /\
    length (printed (trace (rag_evaluation n topic p)))
    = (5 * length (tl (returned_chats (trace (rag_evaluation n topic p)))))%nat.
Proof.
  pose proof (rag_evaluation_cases W provider retriever n topic p) as H.
  destruct (chat provider Evaluation.llm _ (world p)) as [w1 [reply|e]];
    rewrite H; clear H.
  - destruct (for_enumerate_console n (split newline reply) 0 []
                (mkProcess (globals p) w1))
      as (its & extra & Hq & Hlen & Hp & Hr).
    destruct (loop n 0 (split newline reply) [] (mkProcess (globals p) w1))
      as [[p2 t2] r].
    unfold trace in *. cbn [fst snd] in *.
    exists its, extra.
    change (retrieved_queries (EvChat Evaluation.llm
              (question_gen_messages n topic) (Ok reply) :: t2))
      with (retrieved_queries t2).
    change (printed (EvChat Evaluation.llm
              (question_gen_messages n topic) (Ok reply) :: t2))
      with (printed t2).
    change (returned_chats (EvChat Evaluation.llm
              (question_gen_messages n topic) (Ok reply) :: t2))
      with (reply :: returned_chats t2).
    cbn [tl]. rewrite Hq, Hp, Hr, length_loop_lines, length_map.
    now repeat split.
  - exists [], []. unfold trace. cbn [fst snd]. repeat split. simpl. lia.
Qed.

(** X8. Every call [rag_evaluation] makes to a model is a free-text call
    to the one model it builds (gpt-4o-mini at temperature 0) with a
    single human message: it never asks for structured output, in any
    run. *)
Theorem X8_evaluator_calls_are_free_text (n : Z) (topic : string) (p : Process W) :
  Forall evaluator_event (trace (rag_evaluation n topic p)) /\
  model Evaluation.llm = "gpt-4o-mini" /\
  temperature Evaluation.llm = 0%Q /\
  top_p Evaluation.llm = None.
Proof.
  split; [|now repeat split].
  pose proof (rag_evaluation_cases W provider retriever n topic p) as H.
  destruct (chat provider Evaluation.llm _ (world p)) as [w1 [reply|e]];
    rewrite H; clear H.
  - pose proof (for_enumerate_evaluator_events n (split newline reply) 0 []
                  (mkProcess (globals p) w1)) as Hev.
    destruct (loop n 0 (split newline reply) [] (mkProcess (globals p) w1))
      as [[p2 t2] r].
    unfold trace in *. cbn [fst snd] in *.
    constructor; [|exact Hev].
    split; [reflexivity|]. now eexists.
  - unfold trace. cbn [fst snd]. constructor; [|constructor].
    split; [reflexivity|]. now eexists.
Qed.

(** X10. If the model answers with questions that hold no line feed,
    joined by line feeds, these are the questions evaluated: the split
    undoes the join, and a completed run queries the retriever with
    exactly them, in order. *)
Theorem X10_questions_round_trip (n : Z) (topic : string) (p : Process W)
    (w1 : W) (questions : list string) :
  questions <> [] ->
  Forall (fun q => count newline q = 0%nat) questions ->
  chat provider Evaluation.llm (question_gen_messages n topic) (world p)
  = (w1, Ok (join nl questions)) ->
  split newline (join nl questions) = questions /\
  outcome (Evaluation.generate_questions W provider n topic p) = Ok questions /\
  (forall v,
     outcome (rag_evaluation n topic p) = Ok v ->
     retrieved_queries (trace (rag_evaluation n topic p)) = questions /\
     length (printed (trace (rag_evaluation n topic p)))
     = (5 * length questions)%nat).
Proof.
  intros Hnil Hfree Hchat.
  assert (Hsplit : split newline (join nl questions) = questions).
  { symmetry. apply is_line_split_unique. now repeat split. }
  split; [exact Hsplit|split].
  - unfold Evaluation.generate_questions, Evaluation.question_gen_chain_invoke,
      bind, llm_invoke, ret. rewrite Hchat.
    unfold outcome. cbn [snd]. now rewrite Hsplit.
  - intros v Hok.
    pose proof (retrieved_queries_ok W provider retriever n topic p w1 _ v Hchat Hok)
      as Hq.
    rewrite Hsplit in Hq. split; [exact Hq|].
    destruct (printed_ok W provider retriever n topic p v Hok) as (its & Hits & ->).
    rewrite length_loop_lines. rewrite Hq in Hits.
    now rewrite <- Hits, length_map.
Qed.

End EvaluatorEdges.

(** ** Prompts *)

Lemma line_feed_free_prefix (x : string) :
  forall (y r1 r2 : string),
    count newline x = 0%nat -> count newline y = 0%nat ->
    (x ++ String newline r1)%string = (y ++ String newline r2)%string ->
    x = y /\ r1 = r2.
Proof.
  induction x as [|c x IH]; intros [|d y] r1 r2 Hx Hy H; simpl in *.
  - injection H as H. now split.
  - injection H as Hd _. subst d. now rewrite Ascii.eqb_refl in Hy.
  - injection H as Hc _. subst c. now rewrite Ascii.eqb_refl in Hx.
  - injection H as Hc H. subst d.
    destruct (Ascii.eqb c newline); [discriminate|].
    destruct (IH y r1 r2 Hx Hy H) as [-> ->]. now split.
Qed.

Lemma retrievals_queries (q : string) (docs : list Document) (t : list Event) :
  In (q, docs) (retrievals t) -> In q (retrieved_queries t).
Proof.
  induction t as [|ev t IH]; simpl; [tauto|].
  destruct ev as [l msgs out|l so msgs out|query [ds|e]|text]; simpl; auto.
  intros [H|H]; [left; congruence|right; auto].
Qed.

(** For questions without a line feed the rating prompt tells question
    and context apart: the question ends at the first line feed after
    ["Question: "]. *)
Lemma eval_prompt_determines_pair (q1 c1 q2 c2 : string) :
  count newline q1 = 0%nat -> count newline q2 = 0%nat ->
  Evaluation.eval_prompt q1 c1 = Evaluation.eval_prompt q2 c2 ->
  q1 = q2 /\ c1 = c2.
Proof.
  intros H1 H2 H. unfold Evaluation.eval_prompt in H.
  apply append_inv_head in H.
  assert (Hmarker : exists marker, Evaluation.eval_prompt_1 = String newline marker)
    by (eexists; reflexivity).
  destruct Hmarker as [marker Hmarker]. rewrite Hmarker in H.
  change (String newline marker ++ c1 ++ Evaluation.eval_prompt_2)%string
    with (String newline (marker ++ c1 ++ Evaluation.eval_prompt_2)) in H.
  change (String newline marker ++ c2 ++ Evaluation.eval_prompt_2)%string
    with (String newline (marker ++ c2 ++ Evaluation.eval_prompt_2)) in H.
  destruct (line_feed_free_prefix _ _ _ _ H1 H2 H) as [Hq Hc].
  split; [exact Hq|].
  apply append_inv_head in Hc. now apply append_inv_tail in Hc.
Qed.

(** X9. Every query [rag_evaluation] sends to the retriever is free of
    line feeds, being a segment of the split reply; and for such
    questions the rating prompt determines both the question and the
    context. So two rating requests of a run that carry the same messages
    were built from the same question and the same context text. *)
Theorem X9_rating_request_determines_pair (W : Type) (provider : Provider W)
    (retriever : Retriever W) (n : Z) (topic : string) (p : Process W) :
  Forall (fun q => count newline q = 0%nat)
    (retrieved_queries (trace (Evaluation.rag_evaluation W provider retriever n topic p))) /\
  (forall q1 c1 q2 c2,
     count newline q1 = 0%nat -> count newline q2 = 0%nat ->
     Evaluation.eval_prompt q1 c1 = Evaluation.eval_prompt q2 c2 ->
     q1 = q2 /\ c1 = c2) /\
  (forall qd1 qd2,
     In qd1 (retrievals (trace (Evaluation.rag_evaluation W provider retriever n topic p))) ->
     In qd2 (retrievals (trace (Evaluation.rag_evaluation W provider retriever n topic p))) ->
     Evaluation.to_messages
       (Evaluation.eval_prompt (fst qd1) (join nl (map page_content (snd qd1))))
     = Evaluation.to_messages
         (Evaluation.eval_prompt (fst qd2) (join nl (map page_content (snd qd2)))) ->
     fst qd1 = fst qd2 /\
     join nl (map page_content (snd qd1)) = join nl (map page_content (snd qd2))).
Proof.
  assert (Hfree : Forall (fun q => count newline q = 0%nat)
            (retrieved_queries
               (trace (Evaluation.rag_evaluation W provider retriever n topic p)))).
  { pose proof (rag_evaluation_cases W provider retriever n topic p) as H.
    destruct (chat provider Evaluation.llm _ (world p)) as [w1 [reply|e]];
      rewrite H; clear H; [|constructor].
    destruct (for_enumerate_queries_prefix W provider retriever n
                (split newline reply) 0 [] (mkProcess (globals p) w1))
      as [rest Hrest].
    pose proof (split_segments_free newline reply) as Hseg.
    destruct (Evaluation.for_enumerate W provider retriever n 0
                (split newline reply) [] (mkProcess (globals p) w1))
      as [[p2 t2] r].
    unfold trace in *. cbn [fst snd] in *.
    rewrite Hrest in Hseg. apply Forall_app in Hseg as [Hseg _]. exact Hseg. }
  split; [exact Hfree|]. split; [exact eval_prompt_determines_pair|].
  intros [q1 d1] [q2 d2] Hin1 Hin2 Hmsg. cbn [fst snd] in *.
  apply retrievals_queries in Hin1, Hin2.
  rewrite Forall_forall in Hfree.
  apply eval_prompt_determines_pair;
    [now apply Hfree | now apply Hfree |].
  unfold Evaluation.to_messages in Hmsg. congruence.
Qed.

(** X11. The request [qa_generator] sends determines the context it was
    given: two contexts with the same formatted generation prompt, hence
    with the same messages, are equal. *)
Theorem X11_generation_prompt_injective (c1 c2 : string) :
  [ mkMessage "system" LangchainEvaluation.instruct_prompt;
    mkMessage "user" (LangchainEvaluation.generation_prompt c1) ]
  = [ mkMessage "system" LangchainEvaluation.instruct_prompt;
      mkMessage "user" (LangchainEvaluation.generation_prompt c2) ] ->
  c1 = c2.
Proof.
  intros H.
  assert (Hp : LangchainEvaluation.generation_prompt c1
               = LangchainEvaluation.generation_prompt c2) by congruence.
  unfold LangchainEvaluation.generation_prompt in Hp.
  apply append_inv_head in Hp. now apply append_inv_tail in Hp.
Qed.

(** ** The further properties at concrete collaborators *)

Lemma X1_witness :
  lookup (@nil (string * string)) "question" = None /\
  LangchainEvaluation.correctness nat (Demo.provider Demo.two_lines)
    [] Demo.outputs Demo.ref_outputs Demo.start
  = (Demo.start, [], Raise (KeyError "question")).
Proof.
  split; [reflexivity|].
  destruct (X1_correctness_missing_key nat (Demo.provider Demo.two_lines)
              [] Demo.outputs Demo.ref_outputs Demo.start) as (H & _).
  exact (H eq_refl).
Defined.

Lemma X2_witness :
  lookup Demo.inputs "question" = Some "What is the capital of France?" /\
  lookup Demo.ref_outputs "answer" = Some "Paris" /\
  lookup Demo.outputs "answer" = Some "The capital of France is Paris." /\
  outcome (LangchainEvaluation.correctness nat
             (Demo.provider_grade (PyDict [("correct", PyStr "yes")]))
             Demo.inputs Demo.outputs Demo.ref_outputs Demo.start)
  = Ok (PyStr "yes").
Proof.
  repeat (split; [reflexivity|]).
  destruct (X2_correctness_grade_unvalidated nat
              (Demo.provider_grade (PyDict [("correct", PyStr "yes")]))
              Demo.inputs Demo.outputs Demo.ref_outputs
              "What is the capital of France?" "Paris"
              "The capital of France is Paris." Demo.start 1%nat
              (PyDict [("correct", PyStr "yes")])
              eq_refl eq_refl eq_refl eq_refl) as (_ & _ & H & _).
  exact (H [("correct", PyStr "yes")] (PyStr "yes") eq_refl eq_refl).
Defined.

Lemma X3_witness :
  chat Demo.provider_down Evaluation.llm
    (Evaluation.to_messages (Evaluation.question_gen_prompt 5 "climate change"))
    (world Demo.start)
  = (1%nat, Raise (UpstreamFailure "rate limit")) /\
  outcome (Evaluation.rag_evaluation nat Demo.provider_down Demo.retriever
             5 "climate change" Demo.start)
  = Raise (UpstreamFailure "rate limit").
Proof.
  split; [reflexivity|].
  destruct (X3_first_query nat Demo.provider_down Demo.retriever
              5 "climate change" Demo.start) as (H & _).
  destruct (H 1%nat (UpstreamFailure "rate limit") eq_refl) as (_ & _ & _ & Hout).
  exact Hout.
Defined.

Lemma X4_witness :
  Demo.empty_retriever "Q1" (world Demo.start) = (0%nat, Ok []) /\
  printed (trace (Evaluation.loop_body nat (Demo.provider Demo.two_lines)
                    Demo.empty_retriever 5 0 "Q1" [] Demo.start))
  = [ "Evaluated question 1/5:"; "Question: Q1"; "Context: ";
      ("Evaluation: " ++ Demo.two_lines)%string; Evaluation.separator_line ].
Proof.
  split; [reflexivity|].
  rewrite (X4_empty_retrieval nat (Demo.provider Demo.two_lines)
             Demo.empty_retriever 5 0 "Q1" [] Demo.start 0%nat 1%nat
             Demo.two_lines eq_refl eq_refl).
  reflexivity.
Defined.

Lemma X5_witness :
  chat (Demo.provider ("Q1" ++ nl ++ EmptyString)) Evaluation.llm
    (Evaluation.to_messages (Evaluation.question_gen_prompt 5 "climate change"))
    (world Demo.start)
  = (1%nat, Ok ("Q1" ++ nl ++ EmptyString)%string) /\
  outcome (Evaluation.generate_questions nat
             (Demo.provider ("Q1" ++ nl ++ EmptyString)) 5 "climate change"
             Demo.start)
  = Ok ["Q1"; EmptyString].
Proof.
  split; [reflexivity|].
  destruct (X5_reply_line_feeds nat (Demo.provider ("Q1" ++ nl ++ EmptyString))
              5 "climate change" Demo.start 1%nat
              "Q1" EmptyString eq_refl) as (_ & H & _).
  exact (H eq_refl).
Defined.

Lemma X7_witness :
  Demo.flaky_retriever "Q2" "Q2" 2%nat = (2%nat, Raise (UpstreamFailure "timeout")) /\
  outcome (Evaluation.for_enumerate nat (Demo.provider Demo.five_lines)
             (Demo.flaky_retriever "Q2") 5 0 (["Q1"] ++ "Q2" :: ["Q3"; "Q4"]) []
             (mkProcess Evaluation.module_load 1%nat))
  = Raise (UpstreamFailure "timeout").
Proof.
  split; [reflexivity|].
  destruct (X7_failure_point nat (Demo.provider Demo.five_lines)
              (Demo.flaky_retriever "Q2") 5 ["Q1"] "Q2" ["Q3"; "Q4"] 0 []
              (mkProcess Evaluation.module_load 1%nat)
              (final (Evaluation.for_enumerate nat (Demo.provider Demo.five_lines)
                        (Demo.flaky_retriever "Q2") 5 0 ["Q1"] []
                        (mkProcess Evaluation.module_load 1%nat)))
              (trace (Evaluation.for_enumerate nat (Demo.provider Demo.five_lines)
                        (Demo.flaky_retriever "Q2") 5 0 ["Q1"] []
                        (mkProcess Evaluation.module_load 1%nat)))
              [] eq_refl) as (H & _).
  rewrite (H 2%nat (UpstreamFailure "timeout") eq_refl).
  reflexivity.
Defined.

Lemma X9_witness :
  count newline "Q1" = 0%nat /\
  Evaluation.eval_prompt "Q1" "doc" = Evaluation.eval_prompt "Q1" "doc" /\
  "Q1" = "Q1" /\ "doc" = "doc".
Proof.
  split; [reflexivity|]. split; [reflexivity|].
  destruct (X9_rating_request_determines_pair nat (Demo.provider Demo.two_lines)
              Demo.retriever 5 "climate change" Demo.start) as (_ & H & _).
  exact (H "Q1" "doc" "Q1" "doc" eq_refl eq_refl eq_refl).
Defined.

Lemma X10_witness :
  ["Q1"; "Q2"] <> [] /\
  Forall (fun q => count newline q = 0%nat) ["Q1"; "Q2"] /\
  chat (Demo.provider Demo.two_lines) Evaluation.llm
    (Evaluation.to_messages (Evaluation.question_gen_prompt 5 "climate change"))
    (world Demo.start)
  = (1%nat, Ok (join nl ["Q1"; "Q2"])) /\
  outcome (Evaluation.generate_questions nat (Demo.provider Demo.two_lines)
             5 "climate change" Demo.start)
  = Ok ["Q1"; "Q2"].
Proof.
  assert (Hnil : ["Q1"; "Q2"] <> []) by discriminate.
  assert (Hfree : Forall (fun q => count newline q = 0%nat) ["Q1"; "Q2"])
    by (repeat constructor).
  split; [exact Hnil|]. split; [exact Hfree|]. split; [reflexivity|].
  destruct (X10_questions_round_trip nat (Demo.provider Demo.two_lines)
              Demo.retriever 5 "climate change" Demo.start 1%nat ["Q1"; "Q2"]
              Hnil Hfree eq_refl) as (_ & H & _).
  exact H.
Defined.

Lemma X11_witness :
  [ mkMessage "system" LangchainEvaluation.instruct_prompt;
    mkMessage "user" (LangchainEvaluation.generation_prompt "Water boils at 100 C.") ]
  = [ mkMessage "system" LangchainEvaluation.instruct_prompt;
      mkMessage "user" (LangchainEvaluation.generation_prompt "Water boils at 100 C.") ] /\
  "Water boils at 100 C." = "Water boils at 100 C.".
Proof.
  split; [reflexivity|].
  exact (X11_generation_prompt_injective "Water boils at 100 C."
           "Water boils at 100 C." eq_refl).
Defined.
